(** * Crop_Status: the inventory-aggregation pass of
      [crop_inventory/inventory_utils.py], embedded and verified.

    The development follows the source top-down:
    - [Py]: the fragment of Python/pandas the pass relies on (cell values,
      exceptions, [pd.isna], truthiness, [int], [str.lower], [in],
      [datetime.strptime], [sorted], [str.join]);
    - [create_crop_inventory]: field extraction, row classification, the
      aggregation loops and the final set-to-sorted-list conversion;
    - [create_summary_dataframe]: the per-(country, crop) summary record;
    - the properties of the specification, stated over these definitions. *)

From Stdlib Require Import ZArith String Ascii List PrimFloat Uint63 Lia.
From stdpp Require Import base option list gmap sets strings pretty.

Local Open Scope string_scope.
Local Open Scope Z_scope.

(** ** Python values and exceptions *)

(** What a cell of a row holds once [pd.read_csv] has parsed a file, plus
    [None], the default of [row.get(k)].  Text is a byte string (UTF-8);
    a numeric cell is an integer: a bool or an integral float cell is
    identified with the integer it is [==] to (Python hashes and compares them
    alike, so sets and dict keys do not tell them apart); cells holding a
    non-integral float are outside the embedded fragment.

    Limit of the embedding: there is one [VNaN] for every NaN cell.  A Python
    set keeps one entry per NaN object (NaN is not [==] to itself), so where
    the code adds the NaN of two cells to a set, the set here holds [VNaN]
    once.  Only [regions] can receive a NaN; statements that count the
    entries of [regions], or feed a NaN-region row twice, are outside what
    this type can express. *)
Inductive value : Type :=
  | VNone
  | VNaN
  | VStr (s : string)
  | VInt (z : Z).

(** The exceptions the modelled builtins raise. *)
Inductive exn : Type :=
  | ValueError
  | TypeError
  | AttributeError.

(** A computation that returns or raises. *)
Inductive res (A : Type) : Type :=
  | Ok (a : A)
  | Raise (e : exn).
Arguments Ok {A} a.
Arguments Raise {A} e.

#[global] Instance res_ret : MRet res := fun A a => Ok a.

#[global] Instance res_bind : MBind res := fun A B k m =>
  match m with
  | Ok a => k a
  | Raise e => Raise e
  end.

(** [try: m  except: h] with a bare [except], which catches everything. *)
Definition try_except {A} (m : res A) (h : A) : A :=
  match m with
  | Ok a => a
  | Raise _ => h
  end.

Definition is_ok {A} (m : res A) : bool :=
  match m with
  | Ok _ => true
  | Raise _ => false
  end.

#[global] Instance value_eq_dec : EqDecision value.
Proof. solve_decision. Defined.

Definition value_encode (v : value) : unit + unit + string + Z :=
  match v with
  | VNone => inl (inl (inl tt))
  | VNaN => inl (inl (inr tt))
  | VStr s => inl (inr s)
  | VInt z => inr z
  end.

Definition value_decode (x : unit + unit + string + Z) : value :=
  match x with
  | inl (inl (inl _)) => VNone
  | inl (inl (inr _)) => VNaN
  | inl (inr s) => VStr s
  | inr z => VInt z
  end.

#[global] Instance value_countable : Countable value.
Proof.
  apply (inj_countable' value_encode value_decode).
  intros []; reflexivity.
Defined.

(** ** Builtins *)

(** [pd.isna(v)] on a scalar. *)
Definition pd_isna (v : value) : bool :=
  match v with
  | VNone | VNaN => true
  | VStr _ | VInt _ => false
  end.

(** [bool(v)]: [None], [''] and [0] are falsy; [nan] is truthy. *)
Definition truthy (v : value) : bool :=
  match v with
  | VNone => false
  | VNaN => true
  | VStr s => negb (String.eqb s "")
  | VInt z => negb (z =? 0)
  end.

(** [bool(year)] where [year] is [None] or an [int]. *)
Definition truthy_year (y : option Z) : bool :=
  match y with
  | None => false
  | Some z => negb (z =? 0)
  end.

Definition chars (s : string) : list ascii := list_ascii_of_string s.

Definition code (c : ascii) : nat := nat_of_ascii c.

Definition is_space (c : ascii) : bool :=
  let n := code c in
  ((9 <=? n)%nat && (n <=? 13)%nat) || (n =? 32)%nat.

Definition digit_val (c : ascii) : option Z :=
  let n := code c in
  if ((48 <=? n)%nat && (n <=? 57)%nat)%bool then Some (Z.of_nat n - 48) else None.

Definition is_digit (c : ascii) : bool :=
  match digit_val c with Some _ => true | None => false end.

Fixpoint lstrip (cs : list ascii) : list ascii :=
  match cs with
  | c :: cs' => if is_space c then lstrip cs' else cs
  | [] => []
  end.

Definition strip (cs : list ascii) : list ascii :=
  rev (lstrip (rev (lstrip cs))).

(** The digits of a decimal literal: [digit ("_"? digit)*]. *)
Fixpoint int_digits (acc : Z) (after_digit : bool) (cs : list ascii) : option Z :=
  match cs with
  | [] => if after_digit then Some acc else None
  | c :: cs' =>
      if Ascii.eqb c "_"%char
      then (if after_digit then int_digits acc false cs' else None)
      else match digit_val c with
           | Some d => int_digits (10 * acc + d) true cs'
           | None => None
           end
  end.

(** [int(s)] for text, base 10: surrounding whitespace, an optional sign,
    digits with single underscores between them.  ASCII only: Python also
    reads the decimal digits and strips the spaces of other scripts
    ([int('２０１９')] is 2019); here such text does not parse. *)
Definition int_of_text (s : string) : option Z :=
  match strip (chars s) with
  | c :: cs =>
      if Ascii.eqb c "-"%char then Z.opp <$> int_digits 0 false cs
      else if Ascii.eqb c "+"%char then int_digits 0 false cs
      else int_digits 0 false (c :: cs)
  | [] => None
  end.

(** [int(v)]. *)
Definition py_int (v : value) : res Z :=
  match v with
  | VInt z => Ok z
  | VStr s => match int_of_text s with
              | Some z => Ok z
              | None => Raise ValueError
              end
  | VNaN => Raise ValueError
  | VNone => Raise TypeError
  end.

Definition lower_char (c : ascii) : ascii :=
  let n := code c in
  if ((65 <=? n)%nat && (n <=? 90)%nat)%bool then ascii_of_nat (n + 32) else c.

(** [s.lower()] on the ASCII letters; the other bytes are kept. *)
Fixpoint lower (s : string) : string :=
  match s with
  | EmptyString => EmptyString
  | String c s' => String (lower_char c) (lower s')
  end.

(** [v.lower()]: only text has the method. *)
Definition py_lower (v : value) : res string :=
  match v with
  | VStr s => Ok (lower s)
  | _ => Raise AttributeError
  end.

(** [sub in s] for text. *)
Fixpoint contains (sub s : string) : bool :=
  String.prefix sub s ||
  match s with
  | EmptyString => false
  | String _ s' => contains sub s'
  end.

(** ** [datetime.strptime]

    A format is a sequence of directives and literal characters.  As
    [_strptime] does, each directive stands for a regular expression whose
    alternatives are tried in order with backtracking; the match is anchored
    at the start only, and text left over after the first match is an error. *)
Inductive fmt_item : Type :=
  | DirY                 (* %Y : \d\d\d\d *)
  | DirM                 (* %m : 1[0-2]|0[1-9]|[1-9] *)
  | DirD                 (* %d : 3[0-1]|[1-2]\d|0[1-9]|[1-9]| [1-9] *)
  | Lit (c : ascii).

Definition format := list fmt_item.

Definition fmt_Y_m_d : format := [DirY; Lit "-"; DirM; Lit "-"; DirD].
Definition fmt_m_d_Y : format := [DirM; Lit "/"; DirD; Lit "/"; DirY].
Definition fmt_d_m_Y : format := [DirD; Lit "/"; DirM; Lit "/"; DirY].
Definition fmt_Y : format := [DirY].

(** One digit in the range [lo..hi]. *)
Definition digit_in (lo hi : Z) (c : ascii) : option Z :=
  match digit_val c with
  | Some d => if (lo <=? d) && (d <=? hi) then Some d else None
  | None => None
  end.

(** An alternative made of two character classes, the value read in base 10. *)
Definition alt2 (lo1 hi1 lo2 hi2 : Z) (cs : list ascii) : list (Z * list ascii) :=
  match cs with
  | c1 :: c2 :: rest =>
      match digit_in lo1 hi1 c1, digit_in lo2 hi2 c2 with
      | Some a, Some b => [(10 * a + b, rest)]
      | _, _ => []
      end
  | _ => []
  end.

Definition alt1 (lo hi : Z) (cs : list ascii) : list (Z * list ascii) :=
  match cs with
  | c :: rest =>
      match digit_in lo hi c with
      | Some a => [(a, rest)]
      | None => []
      end
  | [] => []
  end.

(** [" [1-9]"]: a space, then a digit. *)
Definition alt_space1 (cs : list ascii) : list (Z * list ascii) :=
  match cs with
  | c :: rest => if Ascii.eqb c " "%char then alt1 1 9 rest else []
  | [] => []
  end.

Definition re_Y (cs : list ascii) : list (Z * list ascii) :=
  match cs with
  | c1 :: c2 :: c3 :: c4 :: rest =>
      match digit_val c1, digit_val c2, digit_val c3, digit_val c4 with
      | Some a, Some b, Some c, Some d => [(1000 * a + 100 * b + 10 * c + d, rest)]
      | _, _, _, _ => []
      end
  | _ => []
  end.

Definition re_m (cs : list ascii) : list (Z * list ascii) :=
  alt2 1 1 0 2 cs ++ alt2 0 0 1 9 cs ++ alt1 1 9 cs.

Definition re_d (cs : list ascii) : list (Z * list ascii) :=
  alt2 3 3 0 1 cs ++ alt2 1 2 0 9 cs ++ alt2 0 0 1 9 cs ++ alt1 1 9 cs
  ++ alt_space1 cs.

(** The groups a match has bound. *)
Record groups : Type := { gY : option Z; gm : option Z; gd : option Z }.

Definition no_groups : groups := {| gY := None; gm := None; gd := None |}.

(** All the ways [fmt] matches a prefix of [cs], in the order a backtracking
    matcher meets them: each with the groups bound and the text left. *)
Fixpoint match_format (fmt : format) (g : groups) (cs : list ascii)
  : list (groups * list ascii) :=
  match fmt with
  | [] => [(g, cs)]
  | Lit c :: fmt' =>
      match cs with
      | c' :: rest => if Ascii.eqb c c' then match_format fmt' g rest else []
      | [] => []
      end
  | DirY :: fmt' =>
      flat_map (fun '(y, rest) =>
        match_format fmt' {| gY := Some y; gm := gm g; gd := gd g |} rest) (re_Y cs)
  | DirM :: fmt' =>
      flat_map (fun '(m, rest) =>
        match_format fmt' {| gY := gY g; gm := Some m; gd := gd g |} rest) (re_m cs)
  | DirD :: fmt' =>
      flat_map (fun '(d, rest) =>
        match_format fmt' {| gY := gY g; gm := gm g; gd := Some d |} rest) (re_d cs)
  end.

Definition is_leap (y : Z) : bool :=
  (y mod 4 =? 0) && (negb (y mod 100 =? 0) || (y mod 400 =? 0)).

Definition days_in_month (y m : Z) : Z :=
  if m =? 2 then (if is_leap y then 29 else 28)
  else if (m =? 4) || (m =? 6) || (m =? 9) || (m =? 11) then 30
  else 31.

(** The [datetime] object, as far as the pass reads it. *)
Record datetime : Type := { dt_year : Z; dt_month : Z; dt_day : Z }.

(** The checks of the [date] constructor: [MINYEAR = 1], [MAXYEAR = 9999]. *)
Definition make_date (y m d : Z) : res datetime :=
  if (1 <=? y) && (y <=? 9999) && (1 <=? m) && (m <=? 12)
     && (1 <=? d) && (d <=? days_in_month y m)
  then Ok {| dt_year := y; dt_month := m; dt_day := d |}
  else Raise ValueError.

(** [datetime.strptime(s, fmt)] on text. *)
Definition strptime_text (s : string) (fmt : format) : res datetime :=
  match match_format fmt no_groups (chars s) with
  | [] => Raise ValueError                       (* does not match format *)
  | (g, rest) :: _ =>
      match rest with
      | _ :: _ => Raise ValueError               (* unconverted data remains *)
      | [] => make_date (default 1900 (gY g)) (default 1 (gm g)) (default 1 (gd g))
      end
  end.

(** [datetime.strptime(v, fmt)]: the first argument must be [str]. *)
Definition strptime (v : value) (fmt : format) : res datetime :=
  match v with
  | VStr s => strptime_text s fmt
  | _ => Raise TypeError
  end.

(** ** [sorted] and [str.join] *)

(** [a < b].  Text is ordered by code points (bytewise on UTF-8), integers
    numerically; [nan] compares false with every number; text against a
    number, and [None] against anything, is a [TypeError]. *)
Definition py_lt (a b : value) : res bool :=
  match a, b with
  | VStr s, VStr t => Ok (String.ltb s t)
  | VInt x, VInt y => Ok (x <? y)
  | VNaN, VNaN | VNaN, VInt _ | VInt _, VNaN => Ok false
  | _, _ => Raise TypeError
  end.

Section Sorted.
Context {A : Type} (lt : A -> A -> res bool).

(** Insert [x] into a sorted list, after the elements not above it. *)
Fixpoint insert_sorted (x : A) (l : list A) : res (list A) :=
  match l with
  | [] => Ok [x]
  | y :: l' =>
      b ← lt x y;
      if b : bool then Ok (x :: y :: l')
      else l'' ← insert_sorted x l'; Ok (y :: l'')
  end.

(** [sorted(l)]: an insertion sort that only asks [<]; it raises as soon as
    a comparison does.  On a list whose elements [<] orders totally (text
    only, or integers only) this is the list Python returns.  With NaN among
    numbers [<] is not a total order and Python's result depends on the order
    in which the set is iterated: the list computed here is then one possible
    order, not necessarily Python's. *)
Fixpoint sorted (l : list A) : res (list A) :=
  match l with
  | [] => Ok []
  | x :: l' => s ← sorted l'; insert_sorted x s
  end.
End Sorted.

(** [sep.join(l)]: every item must be text. *)
Fixpoint py_join (sep : string) (l : list value) : res string :=
  match l with
  | [] => Ok ""
  | [VStr s] => Ok s
  | VStr s :: l' => t ← py_join sep l'; Ok (s +:+ sep +:+ t)
  | _ :: _ => Raise TypeError
  end.

(** * [create_crop_inventory] *)

(** A row of a data frame: column name to cell.  [row.get(k, d)] is the cell,
    or [d] when the file has no column [k]. *)
Abbreviation row := (gmap string value).

Definition row_get (r : row) (k : string) (dflt : value) : value :=
  default dflt (r !! k).

(** ** The aggregate and the nested inventory *)

Record aggregate : Type := {
  years : gset Z;
  seasonality : gset value;
  area_planted : bool;
  area_harvested : bool;
  quantity_produced : bool;
  production : bool;
  regions : gset value;
  data_sources : gset value;
  indicators : gset value
}.

(** The value the inner [defaultdict] creates on first access. *)
Definition new_aggregate : aggregate := {|
  years := ∅; seasonality := ∅;
  area_planted := false; area_harvested := false;
  quantity_produced := false; production := false;
  regions := ∅; data_sources := ∅; indicators := ∅
|}.

(** [defaultdict(lambda: defaultdict(...))]: country code, then crop. *)
Abbreviation inventory_map := (gmap value (gmap value aggregate)).

(** [inventory[country_code][crop]] read without creating anything. *)
Definition inv_lookup (inv : inventory_map) (cc crop : value) : option aggregate :=
  inv !! cc ≫= fun crops => crops !! crop.

(** One statement [inventory[country_code][crop][...] <op>]: both levels are
    created on first access, then the aggregate is changed in place. *)
Definition upd (cc crop : value) (f : aggregate -> aggregate) (inv : inventory_map)
  : inventory_map :=
  let crops := default ∅ (inv !! cc) in
  <[cc := <[crop := f (default new_aggregate (crops !! crop))]> crops]> inv.

Definition add_year (y : Z) (a : aggregate) : aggregate :=
  {| years := years a ∪ {[y]}; seasonality := seasonality a;
     area_planted := area_planted a; area_harvested := area_harvested a;
     quantity_produced := quantity_produced a; production := production a;
     regions := regions a; data_sources := data_sources a;
     indicators := indicators a |}.

Definition add_season (s : value) (a : aggregate) : aggregate :=
  {| years := years a; seasonality := seasonality a ∪ {[s]};
     area_planted := area_planted a; area_harvested := area_harvested a;
     quantity_produced := quantity_produced a; production := production a;
     regions := regions a; data_sources := data_sources a;
     indicators := indicators a |}.

Definition or_area_planted (b : bool) (a : aggregate) : aggregate :=
  {| years := years a; seasonality := seasonality a;
     area_planted := area_planted a || b; area_harvested := area_harvested a;
     quantity_produced := quantity_produced a; production := production a;
     regions := regions a; data_sources := data_sources a;
     indicators := indicators a |}.

Definition or_area_harvested (b : bool) (a : aggregate) : aggregate :=
  {| years := years a; seasonality := seasonality a;
     area_planted := area_planted a; area_harvested := area_harvested a || b;
     quantity_produced := quantity_produced a; production := production a;
     regions := regions a; data_sources := data_sources a;
     indicators := indicators a |}.

Definition or_quantity_produced (b : bool) (a : aggregate) : aggregate :=
  {| years := years a; seasonality := seasonality a;
     area_planted := area_planted a; area_harvested := area_harvested a;
     quantity_produced := quantity_produced a || b; production := production a;
     regions := regions a; data_sources := data_sources a;
     indicators := indicators a |}.

Definition or_production (b : bool) (a : aggregate) : aggregate :=
  {| years := years a; seasonality := seasonality a;
     area_planted := area_planted a; area_harvested := area_harvested a;
     quantity_produced := quantity_produced a; production := production a || b;
     regions := regions a; data_sources := data_sources a;
     indicators := indicators a |}.

Definition add_region (x : value) (a : aggregate) : aggregate :=
  {| years := years a; seasonality := seasonality a;
     area_planted := area_planted a; area_harvested := area_harvested a;
     quantity_produced := quantity_produced a; production := production a;
     regions := regions a ∪ {[x]}; data_sources := data_sources a;
     indicators := indicators a |}.

Definition add_source (x : value) (a : aggregate) : aggregate :=
  {| years := years a; seasonality := seasonality a;
     area_planted := area_planted a; area_harvested := area_harvested a;
     quantity_produced := quantity_produced a; production := production a;
     regions := regions a; data_sources := data_sources a ∪ {[x]};
     indicators := indicators a |}.

Definition add_indicator (x : value) (a : aggregate) : aggregate :=
  {| years := years a; seasonality := seasonality a;
     area_planted := area_planted a; area_harvested := area_harvested a;
     quantity_produced := quantity_produced a; production := production a;
     regions := regions a; data_sources := data_sources a;
     indicators := indicators a ∪ {[x]} |}.

(** ** Field extraction (lines 60-108 and 143-148) *)

Definition extract_crop (r : row) : value :=
  let crop := row_get r "product" (VStr "") in
  let crop :=
    if pd_isna crop || negb (truthy crop)
    then row_get r "cpcv2_description" (VStr "Unknown Crop")
    else crop in
  if pd_isna crop then VStr "Unknown Crop" else crop.

Definition date_fields : list string :=
  ["start_date"; "period_date"; "harvest_end_date"].

Definition date_formats : list format :=
  [fmt_Y_m_d; fmt_m_d_Y; fmt_d_m_Y; fmt_Y].

(** [for fmt in [...]: try: ...; year = date_obj.year; break
                        except: continue] *)
Fixpoint try_formats (date_str : value) (fmts : list format) (year : option Z)
  : option Z :=
  match fmts with
  | [] => year
  | fmt :: fmts' =>
      match strptime date_str fmt with
      | Ok date_obj => Some (dt_year date_obj)
      | Raise _ => try_formats date_str fmts' year
      end
  end.

(** [for field in date_fields: if not pd.isna(row.get(field)): ...
                                  if year: break] *)
Fixpoint scan_date_fields (r : row) (fields : list string) (year : option Z)
  : option Z :=
  match fields with
  | [] => year
  | field :: fields' =>
      if negb (pd_isna (row_get r field VNone)) then
        let year' := try_formats (row_get r field VNone) date_formats year in
        if truthy_year year' then year' else scan_date_fields r fields' year'
      else scan_date_fields r fields' year
  end.

(** Lines 70-92.  The date fields are scanned in the handler of the [try]
    around [int(...)], which itself is under the [pd.isna] test. *)
Definition extract_year (r : row) : option Z :=
  if negb (pd_isna (row_get r "season_year" VNone)) then
    try_except (y ← py_int (row_get r "season_year" VNone); Ok (Some y))
               (scan_date_fields r date_fields None)
  else None.

Definition extract_season (r : row) : value :=
  let season := row_get r "season_name" (VStr "") in
  let season :=
    if pd_isna season || negb (truthy season)
    then row_get r "season_type" (VStr "Annual")
    else season in
  if pd_isna season then VStr "Annual" else season.

Definition admin_levels : list string :=
  ["admin_4"; "admin_3"; "admin_2"; "admin_1"; "admin_0"].

(** [for admin_level in [...]: if not pd.isna(...) and ...: region = ...; break] *)
Fixpoint first_admin (r : row) (levels : list string) (region : value) : value :=
  match levels with
  | [] => region
  | admin_level :: levels' =>
      if negb (pd_isna (row_get r admin_level VNone))
         && truthy (row_get r admin_level VNone)
      then row_get r admin_level VNone
      else first_admin r levels' region
  end.

Definition extract_region (r : row) : value :=
  let region := first_admin r admin_levels VNone in
  if negb (truthy region)
  then row_get r "geographic_unit_name" (VStr "National")
  else region.

Definition extract_source (r : row) : value :=
  let source := row_get r "source_organization" (VStr "") in
  let source :=
    if pd_isna source || negb (truthy source)
    then row_get r "source_document" (VStr "Unknown")
    else source in
  if pd_isna source then VStr "Unknown" else source.

(** ** Row classification (lines 110-141) *)

Record flags : Type := {
  f_area_planted : bool;
  f_area_harvested : bool;
  f_quantity_produced : bool;
  f_production : bool
}.

Definition no_flags : flags :=
  {| f_area_planted := false; f_area_harvested := false;
     f_quantity_produced := false; f_production := false |}.

Definition any_flag (fl : flags) : bool :=
  f_area_planted fl || f_area_harvested fl || f_quantity_produced fl
  || f_production fl.

(** Lines 121-130. *)
Definition classify_indicator (indicator : value) : res flags :=
  if negb (pd_isna indicator) then
    indicator_lower ← py_lower indicator;
    Ok {| f_area_planted :=
            contains "planted" indicator_lower
            || contains "planting" indicator_lower
            || contains "area planted" indicator_lower;
          f_area_harvested :=
            contains "harvested" indicator_lower
            || contains "harvesting" indicator_lower
            || contains "area harvested" indicator_lower;
          f_production :=
            contains "yield" indicator_lower
            || contains "production" indicator_lower;
          f_quantity_produced :=
            contains "quantity" indicator_lower
            || contains "volume" indicator_lower
            || contains "output" indicator_lower |}
  else Ok no_flags.

(** Lines 133-141: the group is read only when nothing is set so far. *)
Definition classify_group (fl : flags) (indicator_group : value) : res flags :=
  if negb (any_flag fl) && negb (pd_isna indicator_group) then
    indicator_group_lower ← py_lower indicator_group;
    Ok {| f_area_planted :=
            if contains "area" indicator_group_lower then true
            else f_area_planted fl;
          f_area_harvested :=
            if contains "area" indicator_group_lower then true
            else f_area_harvested fl;
          f_production :=
            if contains "production" indicator_group_lower then true
            else f_production fl;
          f_quantity_produced :=
            if contains "quantity" indicator_group_lower
               || contains "yield" indicator_group_lower then true
            else f_quantity_produced fl |}
  else Ok fl.

Definition classify (indicator indicator_group : value) : res flags :=
  fl ← classify_indicator indicator;
  classify_group fl indicator_group.

(** ** The aggregation loops (lines 27-177) *)

(** The inventory with the counters and sets the run reports at the end. *)
Record run_state : Type := {
  inventory : inventory_map;
  file_count : Z;
  row_count : Z;
  error_count : Z;
  country_set : gset value;
  crop_set : gset value
}.

Definition initial_state : run_state := {|
  inventory := ∅; file_count := 0; row_count := 0; error_count := 0;
  country_set := ∅; crop_set := ∅
|}.

Definition with_inventory (f : inventory_map -> inventory_map) (st : run_state)
  : run_state :=
  {| inventory := f (inventory st); file_count := file_count st;
     row_count := row_count st; error_count := error_count st;
     country_set := country_set st; crop_set := crop_set st |}.

Definition add_file_count (n : Z) (st : run_state) : run_state :=
  {| inventory := inventory st; file_count := file_count st + n;
     row_count := row_count st; error_count := error_count st;
     country_set := country_set st; crop_set := crop_set st |}.

Definition add_row_count (n : Z) (st : run_state) : run_state :=
  {| inventory := inventory st; file_count := file_count st;
     row_count := row_count st + n; error_count := error_count st;
     country_set := country_set st; crop_set := crop_set st |}.

Definition add_error_count (n : Z) (st : run_state) : run_state :=
  {| inventory := inventory st; file_count := file_count st;
     row_count := row_count st; error_count := error_count st + n;
     country_set := country_set st; crop_set := crop_set st |}.

Definition add_country (cc : value) (st : run_state) : run_state :=
  {| inventory := inventory st; file_count := file_count st;
     row_count := row_count st; error_count := error_count st;
     country_set := country_set st ∪ {[cc]}; crop_set := crop_set st |}.

Definition add_crop (crop : value) (st : run_state) : run_state :=
  {| inventory := inventory st; file_count := file_count st;
     row_count := row_count st; error_count := error_count st;
     country_set := country_set st; crop_set := crop_set st ∪ {[crop]} |}.

(** Lines 150-166, statement by statement. *)
Definition update_inventory (country_code crop : value) (year : option Z)
    (season : value) (fl : flags) (region source indicator : value)
    (inv : inventory_map) : inventory_map :=
  let inv :=
    match year with
    | Some y => if truthy_year year then upd country_code crop (add_year y) inv else inv
    | None => inv
    end in
  let inv := upd country_code crop (add_season season) inv in
  let inv := upd country_code crop (or_area_planted (f_area_planted fl)) inv in
  let inv := upd country_code crop (or_area_harvested (f_area_harvested fl)) inv in
  let inv := upd country_code crop (or_quantity_produced (f_quantity_produced fl)) inv in
  let inv := upd country_code crop (or_production (f_production fl)) inv in
  let inv := if truthy region then upd country_code crop (add_region region) inv else inv in
  let inv := upd country_code crop (add_source source) inv in
  if negb (pd_isna indicator) then upd country_code crop (add_indicator indicator) inv
  else inv.

(** The body of the row loop (lines 52-169): the [continue] on a missing
    country code, the fields, the classification, the update; an exception
    anywhere in between is caught by the row's [except Exception], which counts
    it.  [country_set] and [crop_set] are already updated by then. *)
Definition process_row (st : run_state) (r : row) : run_state :=
  let country_code := row_get r "country_code" VNone in
  if pd_isna country_code then st
  else
    let st := add_country country_code st in
    let crop := extract_crop r in
    let st := add_crop crop st in
    let year := extract_year r in
    let season := extract_season r in
    let region := extract_region r in
    let indicator := row_get r "indicator" (VStr "") in
    let indicator_group := row_get r "indicator_group" (VStr "") in
    match classify indicator indicator_group with
    | Ok fl =>
        let source := extract_source r in
        with_inventory
          (update_inventory country_code crop year season fl region source indicator)
          st
    | Raise _ => add_error_count 1 st
    end.

(** A file met by the directory walk (hidden directories already pruned):
    its name and what [pd.read_csv] makes of it, a data frame or an
    exception. *)
Record csv_file : Type := {
  filename : string;
  read_csv : res (list row)
}.

(** Line 41. *)
Definition is_crop_file (name : string) : bool :=
  String.eqb (lower name) "la_cropdata.csv" || contains "cropdata" (lower name).

(** Lines 41-177: the file's [try]; its handler only prints. *)
Definition process_file (st : run_state) (f : csv_file) : run_state :=
  if is_crop_file (filename f) then
    match read_csv f with
    | Ok df =>
        let st := add_row_count (Z.of_nat (length df)) st in
        let st := fold_left process_row df st in
        add_file_count 1 st
    | Raise _ => st
    end
  else st.

(** The state when the walk is over (line 178). *)
Definition scan (files : list csv_file) : run_state :=
  fold_left process_file files initial_state.

(** ** Sets to sorted lists (lines 179-192) *)

Record aggregate_out : Type := {
  o_years : list Z;
  o_seasonality : list value;
  o_area_planted : bool;
  o_area_harvested : bool;
  o_quantity_produced : bool;
  o_production : bool;
  o_regions : list value;
  o_data_sources : list value;
  o_indicators : list value
}.

Abbreviation inventory_out := (gmap value (gmap value aggregate_out)).

Definition finalize_aggregate (a : aggregate) : res aggregate_out :=
  ys ← sorted (fun x y => Ok (x <? y)) (elements (years a));
  ss ← sorted py_lt (elements (seasonality a));
  rs ← sorted py_lt (elements (regions a));
  ds ← sorted py_lt (elements (data_sources a));
  ins ← sorted py_lt (elements (indicators a));
  Ok {| o_years := ys; o_seasonality := ss;
        o_area_planted := area_planted a; o_area_harvested := area_harvested a;
        o_quantity_produced := quantity_produced a; o_production := production a;
        o_regions := rs; o_data_sources := ds; o_indicators := ins |}.

(** A loop over a dict whose body may raise: the entries converted so far,
    or the exception. *)
Definition map_traverse {K : Type} `{Countable K} {A B : Type}
    (f : A -> res B) (m : gmap K A) : res (gmap K B) :=
  map_fold (fun k a acc => acc' ← acc; b ← f a; Ok (<[k := b]> acc')) (Ok ∅) m.

Definition finalize (inv : inventory_map) : res inventory_out :=
  map_traverse (map_traverse finalize_aggregate) inv.

(** The function: what it returns, or the exception that ends it. *)
Definition create_crop_inventory (files : list csv_file) : res inventory_out :=
  finalize (inventory (scan files)).

(** * [create_summary_dataframe] (lines 194-240) *)

Record summary_record : Type := {
  s_country_code : value;
  s_crop : value;
  s_year_count : nat;
  s_year_min : option Z;
  s_year_max : option Z;
  s_year_range : string;
  s_years : list Z;
  s_seasonality : string;
  s_region_count : nat;
  s_has_area_planted : bool;
  s_has_area_harvested : bool;
  s_has_quantity : bool;
  s_has_production : bool;
  s_indicators_available : string;
  s_completeness : float;
  s_data_sources : string;
  s_indicator_count : nat
}.

(** [min(l)] and [max(l)] under the guard [if l], so [l] is not empty. *)
Definition py_min (l : list Z) : option Z :=
  match l with
  | [] => None
  | x :: l' => Some (fold_left Z.min l' x)
  end.

Definition py_max (l : list Z) : option Z :=
  match l with
  | [] => None
  | x :: l' => Some (fold_left Z.max l' x)
  end.

Definition bool_to_Z (b : bool) : Z := if b then 1 else 0.

(** [float(n)] for a small non-negative [int]. *)
Definition float_of_Z (n : Z) : float := PrimFloat.of_uint63 (Uint63.of_Z n).

(** [sum([...])]: how many of the four booleans are true. *)
Definition indicators_true (info : aggregate_out) : Z :=
  bool_to_Z (o_area_planted info) + bool_to_Z (o_area_harvested info)
  + bool_to_Z (o_quantity_produced info) + bool_to_Z (o_production info).

(** Lines 229-234: [sum([...]) / 4.0 * 100], in binary64. *)
Definition completeness_of (info : aggregate_out) : float :=
  (float_of_Z (indicators_true info) / 4 * float_of_Z 100)%float.

(** Lines 203-211. *)
Definition indicators_available_of (info : aggregate_out) : list string :=
  (if o_area_planted info then ["Area Planted"] else [])
  ++ (if o_area_harvested info then ["Area Harvested"] else [])
  ++ (if o_quantity_produced info then ["Quantity Produced"] else [])
  ++ (if o_production info then ["Production"] else []).

(** The dict literal of lines 214-237, its entries evaluated in order. *)
Definition make_record (country_code crop_name : value) (info : aggregate_out)
  : res summary_record :=
  let year_range :=
    match py_min (o_years info), py_max (o_years info) with
    | Some lo, Some hi => pretty lo +:+ "-" +:+ pretty hi
    | _, _ => "N/A"
    end in
  seasons ← match o_seasonality info with
            | [] => Ok "N/A"
            | _ :: _ => py_join ", " (o_seasonality info)
            end;
  sources ← (if (length (o_data_sources info) <=? 3)%nat
             then py_join "; " (o_data_sources info)
             else Ok (pretty (length (o_data_sources info)) +:+ " sources"));
  Ok {| s_country_code := country_code;
        s_crop := crop_name;
        s_year_count := length (o_years info);
        s_year_min := py_min (o_years info);
        s_year_max := py_max (o_years info);
        s_year_range := year_range;
        s_years := o_years info;
        s_seasonality := seasons;
        s_region_count := length (o_regions info);
        s_has_area_planted := o_area_planted info;
        s_has_area_harvested := o_area_harvested info;
        s_has_quantity := o_quantity_produced info;
        s_has_production := o_production info;
        s_indicators_available := String.concat ", " (indicators_available_of info);
        s_completeness := completeness_of info;
        s_data_sources := sources;
        s_indicator_count := length (o_indicators info) |}.

(** The records of the data frame, one per (country, crop) entry, in the
    iteration order of the two dicts. *)
Definition create_summary_dataframe (inv : inventory_out) : res (list summary_record) :=
  rows ← mapM (fun '(country_code, crops) =>
                 mapM (fun '(crop_name, info) => make_record country_code crop_name info)
                      (map_to_list crops))
              (map_to_list inv);
  Ok (concat rows).

(** * Vocabulary of the properties *)

(** Field-wise merge of two aggregates: set union and boolean OR. *)
Definition agg_union (a b : aggregate) : aggregate :=
  {| years := years a ∪ years b;
     seasonality := seasonality a ∪ seasonality b;
     area_planted := area_planted a || area_planted b;
     area_harvested := area_harvested a || area_harvested b;
     quantity_produced := quantity_produced a || quantity_produced b;
     production := production a || production b;
     regions := regions a ∪ regions b;
     data_sources := data_sources a ∪ data_sources b;
     indicators := indicators a ∪ indicators b |}.

(** What one row adds to its aggregate, as an aggregate of its own. *)
Definition contribution (year : option Z) (season : value) (fl : flags)
    (region source indicator : value) : aggregate :=
  {| years := match year with
              | Some y => if truthy_year year then {[y]} else ∅
              | None => ∅
              end;
     seasonality := {[season]};
     area_planted := f_area_planted fl;
     area_harvested := f_area_harvested fl;
     quantity_produced := f_quantity_produced fl;
     production := f_production fl;
     regions := if truthy region then {[region]} else ∅;
     data_sources := {[source]};
     indicators := if negb (pd_isna indicator) then {[indicator]} else ∅ |}.

(** The key and the contribution of a row that reaches the update; [None]
    for a row that is skipped or fails. *)
Definition row_effect (r : row) : option (value * value * aggregate) :=
  let country_code := row_get r "country_code" VNone in
  if pd_isna country_code then None
  else
    match classify (row_get r "indicator" (VStr "")) (row_get r "indicator_group" (VStr "")) with
    | Ok fl =>
        Some (country_code, extract_crop r,
              contribution (extract_year r) (extract_season r) fl
                (extract_region r) (extract_source r) (row_get r "indicator" (VStr "")))
    | Raise _ => None
    end.

Definition apply_effect (inv : inventory_map) (e : option (value * value * aggregate))
  : inventory_map :=
  match e with
  | Some (cc, crop, c) => upd cc crop (fun a => agg_union a c) inv
  | None => inv
  end.

(** [a] is below [b]: every set is included, every boolean implied. *)
Definition agg_le (a b : aggregate) : Prop :=
  years a ⊆ years b ∧ seasonality a ⊆ seasonality b
  ∧ regions a ⊆ regions b ∧ data_sources a ⊆ data_sources b
  ∧ indicators a ⊆ indicators b
  ∧ (area_planted a = true → area_planted b = true)
  ∧ (area_harvested a = true → area_harvested b = true)
  ∧ (quantity_produced a = true → quantity_produced b = true)
  ∧ (production a = true → production b = true).

(** The rows the walk feeds to the row loop, in order: those of the files
    whose name is accepted and which [pd.read_csv] could read. *)
Definition rows_of (files : list csv_file) : list row :=
  flat_map (fun f =>
    if is_crop_file (filename f) then
      match read_csv f with
      | Ok df => df
      | Raise _ => []
      end
    else []) files.

(** The step of the aggregation seen from the inventory alone. *)
Definition inventory_step (inv : inventory_map) (r : row) : inventory_map :=
  apply_effect inv (row_effect r).

(** A cell that is text, or missing. *)
Definition text_or_missing (v : value) : bool :=
  match v with
  | VInt _ => false
  | VNone | VNaN | VStr _ => true
  end.

Definition text_of (v : value) : option string :=
  match v with
  | VStr s => Some s
  | _ => None
  end.

(** ** The classifier as the specification words it

    Case-insensitive substring rules on the indicator text; when that text is
    missing or sets nothing, the rules on the indicator-group text; all false
    when neither says anything. *)
Definition spec_indicator_rules (text : string) : flags :=
  let t := lower text in
  {| f_area_planted :=
       contains "planted" t || contains "planting" t || contains "area planted" t;
     f_area_harvested :=
       contains "harvested" t || contains "harvesting" t
       || contains "area harvested" t;
     f_production := contains "yield" t || contains "production" t;
     f_quantity_produced :=
       contains "quantity" t || contains "volume" t || contains "output" t |}.

Definition spec_group_rules (text : string) : flags :=
  let g := lower text in
  {| f_area_planted := contains "area" g;
     f_area_harvested := contains "area" g;
     f_production := contains "production" g;
     f_quantity_produced := contains "quantity" g || contains "yield" g |}.

Definition spec_classify (indicator group : option string) : flags :=
  let fl := from_option spec_indicator_rules no_flags indicator in
  if any_flag fl then fl
  else from_option spec_group_rules no_flags group.

(** ** The classifier's rules, worded without the code's helpers

    "Case-insensitive substring": the text can be cut into three parts whose
    middle one is the keyword up to the case of its ASCII letters. *)
(** Two characters equal up to the case of an ASCII letter (A-Z are 65-90,
    a-z are 97-122). *)
Definition same_letter (c d : ascii) : Prop :=
  c = d
  ∨ ((65 <= code c <= 90)%nat ∧ code d = (code c + 32)%nat)
  ∨ ((65 <= code d <= 90)%nat ∧ code c = (code d + 32)%nat).

Inductive same_text : string → string → Prop :=
  | same_text_nil : same_text "" ""
  | same_text_cons c d s t :
      same_letter c d → same_text s t → same_text (String c s) (String d t).

(** [kw] occurs in [text], case-insensitively. *)
Definition occurs_ci (kw text : string) : Prop :=
  ∃ pre mid post, text = pre +:+ mid +:+ post ∧ same_text mid kw.

(** The text is present and mentions the keyword. *)
Definition mentions (text : option string) (kw : string) : Prop :=
  ∃ t, text = Some t ∧ occurs_ci kw t.

(** The four rules on the indicator text. *)
Definition says_planted (i : option string) : Prop :=
  mentions i "planted" ∨ mentions i "planting" ∨ mentions i "area planted".
Definition says_harvested (i : option string) : Prop :=
  mentions i "harvested" ∨ mentions i "harvesting" ∨ mentions i "area harvested".
Definition says_production (i : option string) : Prop :=
  mentions i "yield" ∨ mentions i "production".
Definition says_quantity (i : option string) : Prop :=
  mentions i "quantity" ∨ mentions i "volume" ∨ mentions i "output".
Definition says_anything (i : option string) : Prop :=
  says_planted i ∨ says_harvested i ∨ says_production i ∨ says_quantity i.

(** The four booleans the specification asks for: those the indicator text
    sets; and, only when the indicator text is missing or sets none, those
    the group text sets. *)
Definition spec_flags (indicator group : option string) (fl : flags) : Prop :=
  (f_area_planted fl = true ↔
     says_planted indicator ∨ (¬ says_anything indicator ∧ mentions group "area"))
  ∧ (f_area_harvested fl = true ↔
     says_harvested indicator ∨ (¬ says_anything indicator ∧ mentions group "area"))
  ∧ (f_production fl = true ↔
     says_production indicator
     ∨ (¬ says_anything indicator ∧ mentions group "production"))
  ∧ (f_quantity_produced fl = true ↔
     says_quantity indicator
     ∨ (¬ says_anything indicator
        ∧ (mentions group "quantity" ∨ mentions group "yield"))).

(** ** The year as the specification words it

    [season_year] parsed as an integer; on failure the date fields in order,
    each with the formats in order, the first successful parse winning. *)
Definition date_attempts : list (string * format) :=
  [("start_date", fmt_Y_m_d); ("start_date", fmt_m_d_Y);
   ("start_date", fmt_d_m_Y); ("start_date", fmt_Y);
   ("period_date", fmt_Y_m_d); ("period_date", fmt_m_d_Y);
   ("period_date", fmt_d_m_Y); ("period_date", fmt_Y);
   ("harvest_end_date", fmt_Y_m_d); ("harvest_end_date", fmt_m_d_Y);
   ("harvest_end_date", fmt_d_m_Y); ("harvest_end_date", fmt_Y)].

Definition parse_year (r : row) (attempt : string * format) : option Z :=
  match strptime (row_get r (fst attempt) VNone) (snd attempt) with
  | Ok date_obj => Some (dt_year date_obj)
  | Raise _ => None
  end.

Definition first_date_parse (r : row) : option Z :=
  head (omap (parse_year r) date_attempts).

Definition spec_extract_year (r : row) : option Z :=
  match py_int (row_get r "season_year" VNone) with
  | Ok y => Some y
  | Raise _ => first_date_parse r
  end.

(** ** The completeness as the specification words it

    [k] of the four booleans are true, and the score is [k × 25.0]: the
    booleans are counted one by one, the five scores are written out. *)
Definition count_true (bs : list bool) : nat :=
  length (List.filter (fun b : bool => b) bs).

Definition spec_completeness (k : nat) : float :=
  match k with
  | 0%nat => 0%float
  | 1%nat => 25%float
  | 2%nat => 50%float
  | 3%nat => 75%float
  | _ => 100%float
  end.

(** * Vocabulary of the further properties *)

(** A file the walk reads: its name is accepted and [pd.read_csv] returns. *)
Definition file_is_read (f : csv_file) : bool :=
  is_crop_file (filename f) && is_ok (read_csv f).

(** A row that has a country code. *)
Definition row_has_country (r : row) : bool :=
  negb (pd_isna (row_get r "country_code" VNone)).

(** A row that ends in the row handler: it has a country code and its
    classification raises. *)
Definition row_fails (r : row) : bool :=
  row_has_country r
  && negb (is_ok (classify (row_get r "indicator" (VStr ""))
                           (row_get r "indicator_group" (VStr "")))).

(** The contributions of the rows that reach the update under one key, in
    the order of the rows. *)
Definition contributions_for (cc crop : value) (rows : list row) : list aggregate :=
  omap (fun r =>
          match row_effect r with
          | Some (cc', crop', c) =>
              if decide (cc' = cc ∧ crop' = crop) then Some c else None
          | None => None
          end) rows.

Definition is_text (v : value) : bool :=
  match v with
  | VStr _ => true
  | _ => false
  end.

(** A row that reaches the update under the key (cc, crop). *)
Definition aggregated_under (cc crop : value) (r : row) : Prop :=
  ∃ c, row_effect r = Some (cc, crop, c).

(** * Sample rows and files *)

Definition mk_row (cells : list (string * value)) : row := list_to_map cells.

Definition row_harvested_2019 : row :=
  mk_row [("country_code", VStr "KE"); ("product", VStr "Maize");
          ("season_year", VInt 2019); ("indicator", VStr "Area Harvested")].

Definition row_production_2020 : row :=
  mk_row [("country_code", VStr "KE"); ("product", VStr "Maize");
          ("season_year", VInt 2020); ("indicator", VStr "Production")].

Definition row_bad_season_year : row :=
  mk_row [("country_code", VStr "KE"); ("product", VStr "Maize");
          ("season_year", VStr "not-a-number"); ("start_date", VStr "2018-05-01")].

Definition row_no_season_year : row :=
  mk_row [("country_code", VStr "KE"); ("product", VStr "Maize");
          ("start_date", VStr "2018-05-01")].

Definition row_missing_unit : row :=
  mk_row [("country_code", VStr "KE"); ("product", VStr "Maize");
          ("geographic_unit_name", VNaN)].

Definition row_numeric_indicator : row :=
  mk_row [("country_code", VStr "KE"); ("product", VStr "Maize");
          ("indicator", VInt 5)].

Definition row_no_country : row :=
  mk_row [("country_code", VNaN); ("product", VStr "Maize");
          ("season_year", VInt 2019); ("indicator", VStr "Production")].

Definition file_a : csv_file :=
  {| filename := "LA_cropdata.csv";
     read_csv := Ok [row_harvested_2019; row_production_2020] |}.

Definition file_b : csv_file :=
  {| filename := "LA_cropdata.csv";
     read_csv := Ok [row_production_2020] |}.

Definition file_c : csv_file :=
  {| filename := "ke_cropdata_2019.csv";
     read_csv := Ok [row_harvested_2019] |}.

Definition unreadable_file : csv_file :=
  {| filename := "LA_cropdata.csv"; read_csv := Raise ValueError |}.

Definition row_group_only : row :=
  mk_row [("country_code", VStr "KE"); ("product", VStr "Maize");
          ("indicator", VNaN); ("indicator_group", VStr "Crop Area")].

Definition row_upper_harvested : row :=
  mk_row [("country_code", VStr "KE"); ("product", VStr "Maize");
          ("indicator", VStr "AREA Harvested (ha)");
          ("indicator_group", VStr "Production")].

Definition row_text_year : row :=
  mk_row [("country_code", VStr "KE"); ("product", VStr "Maize");
          ("season_year", VStr "2019"); ("start_date", VStr "2018-05-01")].

Definition row_dates_order : row :=
  mk_row [("country_code", VStr "KE"); ("product", VStr "Maize");
          ("season_year", VStr "n/a"); ("start_date", VStr "soon");
          ("period_date", VStr "13/01/2019"); ("harvest_end_date", VStr "2020")].

Definition row_us_date : row :=
  mk_row [("country_code", VStr "KE"); ("product", VStr "Maize");
          ("season_year", VStr "n/a"); ("start_date", VStr "05/13/2017");
          ("period_date", VStr "2018")].

Definition row_harvest_year_only : row :=
  mk_row [("country_code", VStr "KE"); ("product", VStr "Maize");
          ("season_year", VStr "n/a"); ("harvest_end_date", VStr "2021")].

(** * Lemmas on the nested inventory *)

#[local] Set Warnings "-clear-no-such-hyp".

Section upd_lemmas.
Implicit Types (inv : inventory_map) (cc crop : value).
Implicit Types (f g : aggregate -> aggregate).

Lemma upd_lookup_outer cc crop f inv cc' :
  upd cc crop f inv !! cc' =
  if decide (cc = cc')
  then Some (<[crop := f (default new_aggregate (inv_lookup inv cc crop))]>
               (default ∅ (inv !! cc)))
  else inv !! cc'.
Proof.
  unfold upd, inv_lookup. case_decide as E.
  - subst. rewrite lookup_insert_eq. destruct (inv !! cc'); reflexivity.
  - rewrite lookup_insert_ne; done.
Qed.

Lemma inv_lookup_upd cc crop f inv cc' crop' :
  inv_lookup (upd cc crop f inv) cc' crop' =
  if decide (cc = cc' ∧ crop = crop')
  then Some (f (default new_aggregate (inv_lookup inv cc crop)))
  else inv_lookup inv cc' crop'.
Proof.
  unfold inv_lookup at 1. rewrite upd_lookup_outer.
  destruct (decide (cc = cc')) as [->|Hcc]; cbn [mbind option_bind].
  - destruct (decide (crop = crop')) as [->|Hcrop].
    + rewrite lookup_insert_eq. rewrite decide_True; done.
    + rewrite lookup_insert_ne; [|done]. rewrite decide_False; [|naive_solver].
      unfold inv_lookup. destruct (inv !! cc'); done.
  - rewrite decide_False; [done|naive_solver].
Qed.

Lemma upd_upd cc crop f g inv :
  upd cc crop f (upd cc crop g inv) = upd cc crop (fun a => f (g a)) inv.
Proof.
  unfold upd. rewrite !lookup_insert_eq. cbn [default from_option id].
  rewrite lookup_insert_eq. cbn [default from_option id].
  rewrite !insert_insert_eq. done.
Qed.

Lemma upd_ext cc crop f g inv :
  (∀ a, f a = g a) → upd cc crop f inv = upd cc crop g inv.
Proof. intros E. unfold upd. rewrite E. done. Qed.

Lemma upd_comm cc1 crop1 f cc2 crop2 g inv :
  (cc1 = cc2 → crop1 = crop2 → ∀ a, f (g a) = g (f a)) →
  upd cc1 crop1 f (upd cc2 crop2 g inv) = upd cc2 crop2 g (upd cc1 crop1 f inv).
Proof.
  intros Hfg. apply map_eq; intros cc. rewrite !upd_lookup_outer.
  rewrite !inv_lookup_upd, ?upd_lookup_outer.
  destruct (decide (cc1 = cc2)) as [->|Hcc];
    destruct (decide (crop1 = crop2)) as [->|Hcrop];
    repeat case_decide; try reflexivity; try (exfalso; intuition congruence).
  - cbn [default from_option id]. rewrite !insert_insert_eq, Hfg; reflexivity.
  - cbn [default from_option id].
    rewrite insert_insert_ne; [reflexivity|congruence].
Qed.
End upd_lemmas.

Lemma union_swap `{Countable A} (X Y Z : gset A) : X ∪ Y ∪ Z = X ∪ Z ∪ Y.
Proof. rewrite <- !(assoc_L (∪)). f_equal. apply (comm_L (∪)). Qed.

Lemma orb_swap (x y z : bool) : x || y || z = x || z || y.
Proof. destruct x, y, z; reflexivity. Qed.

(** Merging two contributions into an aggregate does not depend on their
    order. *)
Lemma agg_union_comm_r a b c :
  agg_union (agg_union a b) c = agg_union (agg_union a c) b.
Proof.
  unfold agg_union;
    cbn [years seasonality area_planted area_harvested
         quantity_produced production regions data_sources indicators].
  f_equal; first [ apply union_swap | apply orb_swap ].
Qed.

Ltac reduce_setters :=
  cbv beta iota delta [agg_union add_indicator add_source add_region
    or_production or_quantity_produced or_area_harvested or_area_planted
    add_season add_year years seasonality area_planted area_harvested
    quantity_produced production regions data_sources indicators].

(** The eight statements of the update amount to one merge. *)
Lemma update_inventory_upd cc crop year season fl region source indicator inv :
  update_inventory cc crop year season fl region source indicator inv =
  upd cc crop
    (fun a => agg_union a (contribution year season fl region source indicator)) inv.
Proof.
  unfold update_inventory, contribution.
  destruct year as [y|]; [destruct (truthy_year (Some y)) eqn:Ey|].
  all: destruct (truthy region) eqn:Er, (pd_isna indicator) eqn:Ei.
  all: cbv beta iota zeta delta [negb].
  all: rewrite !upd_upd.
  all: apply upd_ext; intros a.
  all: reduce_setters.
  all: f_equal; rewrite ?(right_id_L ∅ (∪)); reflexivity.
Qed.

Lemma inventory_process_row st r :
  inventory (process_row st r) = inventory_step (inventory st) r.
Proof.
  unfold process_row, inventory_step, row_effect.
  destruct (pd_isna (row_get r "country_code" VNone)); [reflexivity|].
  destruct (classify _ _) as [fl|e]; cbn [apply_effect].
  - cbn [with_inventory inventory add_crop add_country].
    apply update_inventory_upd.
  - reflexivity.
Qed.

Lemma inventory_process_rows rows : ∀ st,
  inventory (fold_left process_row rows st) =
  fold_left inventory_step rows (inventory st).
Proof.
  induction rows as [|r rows IH]; intros st; [reflexivity|].
  cbn [fold_left]. rewrite IH, inventory_process_row. reflexivity.
Qed.

Lemma inventory_process_files files : ∀ st,
  inventory (fold_left process_file files st) =
  fold_left inventory_step (rows_of files) (inventory st).
Proof.
  induction files as [|f files IH]; intros st; [reflexivity|].
  cbn [fold_left rows_of flat_map]. rewrite IH.
  fold (rows_of files). rewrite fold_left_app. f_equal.
  unfold process_file.
  destruct (is_crop_file (filename f)); [|reflexivity].
  destruct (read_csv f) as [df|e]; [|reflexivity].
  cbn [inventory add_file_count]. rewrite inventory_process_rows. reflexivity.
Qed.

Lemma inventory_step_comm inv r1 r2 :
  inventory_step (inventory_step inv r1) r2 =
  inventory_step (inventory_step inv r2) r1.
Proof.
  unfold inventory_step.
  destruct (row_effect r1) as [[[cc1 crop1] c1]|],
           (row_effect r2) as [[[cc2 crop2] c2]|]; cbn [apply_effect];
    try reflexivity.
  apply upd_comm. intros _ _ a. apply agg_union_comm_r.
Qed.

Lemma fold_left_inventory_step_perm rows1 rows2 :
  rows1 ≡ₚ rows2 →
  ∀ inv, fold_left inventory_step rows1 inv = fold_left inventory_step rows2 inv.
Proof.
  induction 1 as [|r l1 l2 _ IH|r1 r2 l|l1 l2 l3 _ IH1 _ IH2]; intros inv.
  - reflexivity.
  - cbn [fold_left]. apply IH.
  - cbn [fold_left]. rewrite inventory_step_comm. reflexivity.
  - rewrite IH1. apply IH2.
Qed.

(** * The properties *)

(** C1 (order independence).  Two walks that feed the same multiset of rows
    to the row loop, in any order and cut into files in any way, end with the
    same inventory: the map before the final conversion, and what
    [create_crop_inventory] returns (or the exception that ends it). *)
Theorem aggregation_order_independent (files1 files2 : list csv_file) :
  rows_of files1 ≡ₚ rows_of files2 →
  inventory (scan files1) = inventory (scan files2)
  ∧ create_crop_inventory files1 = create_crop_inventory files2.
Proof.
  intros Hperm.
  assert (E : inventory (scan files1) = inventory (scan files2)).
  { unfold scan. rewrite !inventory_process_files.
    apply fold_left_inventory_step_perm, Hperm. }
  split; [exact E|]. unfold create_crop_inventory. rewrite E. reflexivity.
Qed.

Lemma aggregation_order_independent_witness :
  rows_of [file_a] ≡ₚ rows_of [file_b; file_c]
  ∧ inventory (scan [file_a]) = inventory (scan [file_b; file_c])
  ∧ create_crop_inventory [file_a] = create_crop_inventory [file_b; file_c].
Proof.
  assert (Hperm : rows_of [file_a] ≡ₚ rows_of [file_b; file_c]).
  { change (rows_of [file_a]) with [row_harvested_2019; row_production_2020].
    change (rows_of [file_b; file_c]) with [row_production_2020; row_harvested_2019].
    apply perm_swap. }
  split; [exact Hperm|].
  exact (aggregation_order_independent [file_a] [file_b; file_c] Hperm).
Defined.

(** ** Monotonicity *)

Lemma agg_le_refl a : agg_le a a.
Proof. unfold agg_le. repeat split; auto. Qed.

Lemma agg_le_trans a b c : agg_le a b → agg_le b c → agg_le a c.
Proof.
  unfold agg_le.
  intros (H1 & H2 & H3 & H4 & H5 & H6 & H7 & H8 & H9)
         (G1 & G2 & G3 & G4 & G5 & G6 & G7 & G8 & G9).
  repeat split; try (etrans; eassumption); auto.
Qed.

Lemma agg_le_union a c : agg_le a (agg_union a c).
Proof.
  unfold agg_le, agg_union;
    cbn [years seasonality area_planted area_harvested
         quantity_produced production regions data_sources indicators].
  repeat split; try apply union_subseteq_l; intros ->; reflexivity.
Qed.

Lemma inventory_step_lookup inv r cc crop :
  inv_lookup (inventory_step inv r) cc crop =
  match row_effect r with
  | Some (cc', crop', c) =>
      if decide (cc' = cc ∧ crop' = crop)
      then Some (agg_union (default new_aggregate (inv_lookup inv cc crop)) c)
      else inv_lookup inv cc crop
  | None => inv_lookup inv cc crop
  end.
Proof.
  unfold inventory_step. destruct (row_effect r) as [[[cc' crop'] c]|];
    cbn [apply_effect]; [|reflexivity].
  rewrite inv_lookup_upd. case_decide as E; [|reflexivity].
  destruct E as [-> ->]. reflexivity.
Qed.

Lemma inventory_step_mono inv r cc crop a :
  inv_lookup inv cc crop = Some a →
  ∃ a', inv_lookup (inventory_step inv r) cc crop = Some a' ∧ agg_le a a'.
Proof.
  intros Ha. rewrite inventory_step_lookup.
  destruct (row_effect r) as [[[cc' crop'] c]|].
  - case_decide.
    + rewrite Ha. eexists; split; [reflexivity|]. apply agg_le_union.
    + exists a; split; [exact Ha|apply agg_le_refl].
  - exists a; split; [exact Ha|apply agg_le_refl].
Qed.

Lemma inventory_steps_mono rows : ∀ inv cc crop a,
  inv_lookup inv cc crop = Some a →
  ∃ a', inv_lookup (fold_left inventory_step rows inv) cc crop = Some a'
        ∧ agg_le a a'.
Proof.
  induction rows as [|r rows IH]; intros inv cc crop a Ha.
  - exists a; split; [exact Ha|apply agg_le_refl].
  - cbn [fold_left].
    destruct (inventory_step_mono inv r cc crop a Ha) as (a1 & H1 & L1).
    destruct (IH _ _ _ _ H1) as (a2 & H2 & L2).
    exists a2; split; [exact H2|]. eapply agg_le_trans; eassumption.
Qed.

(** C2 (monotonicity).  Whatever the state of the pass, an aggregate that
    exists for a (country_code, crop) key is still there after one more row,
    and after any further files, and it has only grown: each of its five sets
    is included in the later one, and each of its four booleans that is true
    is still true. *)
Theorem aggregates_only_grow (st : run_state) (r : row) (files : list csv_file)
    (cc crop : value) (a : aggregate) :
  inv_lookup (inventory st) cc crop = Some a →
  (∃ a', inv_lookup (inventory (process_row st r)) cc crop = Some a'
         ∧ agg_le a a')
  ∧ (∃ a', inv_lookup (inventory (fold_left process_file files st)) cc crop = Some a'
           ∧ agg_le a a').
Proof.
  intros Ha. split.
  - rewrite inventory_process_row. apply inventory_step_mono, Ha.
  - rewrite inventory_process_files. apply inventory_steps_mono, Ha.
Qed.

Lemma aggregates_only_grow_witness :
  let a := {| years := {[2019]}; seasonality := {[VStr "Annual"]};
              area_planted := false; area_harvested := true;
              quantity_produced := false; production := false;
              regions := {[VStr "National"]}; data_sources := {[VStr "Unknown"]};
              indicators := {[VStr "Area Harvested"]} |} in
  inv_lookup (inventory (scan [file_c])) (VStr "KE") (VStr "Maize") = Some a
  ∧ (∃ a', inv_lookup (inventory (process_row (scan [file_c]) row_production_2020))
             (VStr "KE") (VStr "Maize") = Some a' ∧ agg_le a a')
  ∧ (∃ a', inv_lookup (inventory (fold_left process_file [file_b] (scan [file_c])))
             (VStr "KE") (VStr "Maize") = Some a' ∧ agg_le a a').
Proof.
  intros a.
  assert (Ha : inv_lookup (inventory (scan [file_c])) (VStr "KE") (VStr "Maize")
               = Some a) by (vm_compute; reflexivity).
  split; [exact Ha|].
  exact (aggregates_only_grow (scan [file_c]) row_production_2020 [file_b]
           (VStr "KE") (VStr "Maize") a Ha).
Defined.

(** ** Skipped rows and unreadable files *)

Lemma process_row_no_country st r :
  pd_isna (row_get r "country_code" VNone) = true → process_row st r = st.
Proof. intros H. unfold process_row. rewrite H. reflexivity. Qed.

(** C7 (rows without a country code).  A row whose [country_code] is missing
    leaves the whole state of the run as it was (inventory, error counter,
    country and crop sets), and the loop goes on with the rows that follow:
    a list of rows gives the same state with or without such a row in it. *)
Theorem missing_country_code_skipped (st : run_state) (r : row)
    (before after : list row) :
  pd_isna (row_get r "country_code" VNone) = true →
  process_row st r = st
  ∧ fold_left process_row (before ++ r :: after) st
    = fold_left process_row (before ++ after) st.
Proof.
  intros H. split; [apply process_row_no_country, H|].
  rewrite !fold_left_app. cbn [fold_left].
  rewrite process_row_no_country by exact H. reflexivity.
Qed.

Lemma missing_country_code_skipped_witness :
  pd_isna (row_get row_no_country "country_code" VNone) = true
  ∧ process_row (scan [file_c]) row_no_country = scan [file_c]
  ∧ fold_left process_row
      ([row_harvested_2019] ++ row_no_country :: [row_production_2020])
      (scan [file_c])
    = fold_left process_row ([row_harvested_2019] ++ [row_production_2020])
        (scan [file_c]).
Proof.
  assert (H : pd_isna (row_get row_no_country "country_code" VNone) = true)
    by (vm_compute; reflexivity).
  split; [exact H|].
  exact (missing_country_code_skipped (scan [file_c]) row_no_country
           [row_harvested_2019] [row_production_2020] H).
Defined.

Lemma process_file_unreadable st f e :
  read_csv f = Raise e → process_file st f = st.
Proof.
  intros H. unfold process_file. rewrite H.
  destruct (is_crop_file (filename f)); reflexivity.
Qed.

(** C8, as the code has it.  A file that [pd.read_csv] cannot read leaves
    the state of the run untouched: the walk with it ends in the same state
    (inventory, file, row and error counters) as the walk without it.  The
    error counter is not changed by it: that counter counts failed rows. *)
Theorem unreadable_file_skipped (before after : list csv_file) (f : csv_file)
    (e : exn) :
  read_csv f = Raise e →
  (∀ st, process_file st f = st)
  ∧ scan (before ++ f :: after) = scan (before ++ after)
  ∧ error_count (scan (before ++ f :: after)) = error_count (scan (before ++ after)).
Proof.
  intros H.
  assert (E : scan (before ++ f :: after) = scan (before ++ after)).
  { unfold scan. rewrite !fold_left_app. cbn [fold_left].
    rewrite (process_file_unreadable _ f e H). reflexivity. }
  split; [intros st; apply (process_file_unreadable st f e H)|].
  split; [exact E|]. rewrite E. reflexivity.
Qed.

Lemma unreadable_file_skipped_witness :
  read_csv unreadable_file = Raise ValueError
  ∧ (∀ st, process_file st unreadable_file = st)
  ∧ scan ([file_c] ++ unreadable_file :: [file_b]) = scan ([file_c] ++ [file_b])
  ∧ error_count (scan ([file_c] ++ unreadable_file :: [file_b]))
    = error_count (scan ([file_c] ++ [file_b])).
Proof.
  split; [reflexivity|].
  exact (unreadable_file_skipped [file_c] [file_b] unreadable_file ValueError
           eq_refl).
Defined.

(** C8 as stated fails: the walk over an unreadable file and a readable one
    ends with the error counter at 0, where one increment per failed file
    would give 1; the readable file is aggregated all the same. *)
Lemma failed_file_not_counted :
  is_crop_file (filename unreadable_file) = true
  ∧ read_csv unreadable_file = Raise ValueError
  ∧ error_count (scan [unreadable_file; file_a]) = 0
  ∧ error_count (scan [file_a]) + 1 = 1
  ∧ inventory (scan [unreadable_file; file_a]) = inventory (scan [file_a]).
Proof.
  split; [vm_compute; reflexivity|].
  split; [reflexivity|].
  split; [vm_compute; reflexivity|].
  split; [vm_compute; reflexivity|].
  unfold scan. cbn [fold_left].
  rewrite (process_file_unreadable _ unreadable_file ValueError eq_refl).
  reflexivity.
Qed.

(** ** The final conversion *)

Lemma insert_sorted_length {A} (lt : A → A → res bool) x l l' :
  insert_sorted lt x l = Ok l' → length l' = S (length l).
Proof.
  revert l'. induction l as [|y l IH]; intros l' H; cbn in H.
  - injection H as <-. reflexivity.
  - destruct (lt x y) as [[]|]; cbn in H; try discriminate.
    + injection H as <-. reflexivity.
    + destruct (insert_sorted lt x l) as [l''|]; cbn in H; [|discriminate].
      injection H as <-. cbn. rewrite (IH l'' eq_refl). reflexivity.
Qed.

Lemma sorted_length {A} (lt : A → A → res bool) l l' :
  sorted lt l = Ok l' → length l' = length l.
Proof.
  revert l'. induction l as [|x l IH]; intros l' H; cbn in H.
  - injection H as <-. reflexivity.
  - destruct (sorted lt l) as [s|]; cbn in H; [|discriminate].
    rewrite (insert_sorted_length _ _ _ _ H), (IH s eq_refl). reflexivity.
Qed.

Lemma sorted_elements_nonempty `{Countable A} (lt : A → A → res bool)
    (X : gset A) l :
  X ≠ ∅ → sorted lt (elements X) = Ok l → l ≠ [].
Proof.
  intros HX Hs ->. apply sorted_length in Hs. cbn in Hs.
  apply HX. destruct (elements X) eqn:E; [|discriminate].
  apply leibniz_equiv, elements_empty_iff. exact E.
Qed.

(** What a successful traversal holds: under each key, the image of the
    entry the source map has there. *)
Lemma map_traverse_Ok `{Countable K} {A B} (f : A → res B) (m : gmap K A) m' :
  map_traverse f m = Ok m' →
  ∀ k, m' !! k = m !! k ≫= fun a => match f a with Ok b => Some b | Raise _ => None end.
Proof.
  unfold map_traverse. revert m'. revert m.
  apply (map_fold_weak_ind (fun r m => ∀ m', r = Ok m' → ∀ k,
    m' !! k = m !! k ≫= fun a => match f a with Ok b => Some b | Raise _ => None end)).
  - intros m' [= <-] k. rewrite !lookup_empty. reflexivity.
  - intros i x m r Hi IH m' Hr k.
    destruct r as [acc|]; cbn in Hr; [|discriminate].
    destruct (f x) as [b|] eqn:Efx; cbn in Hr; [|discriminate].
    injection Hr as <-.
    destruct (decide (i = k)) as [->|Hne].
    + rewrite !lookup_insert_eq. cbn. rewrite Efx. reflexivity.
    + rewrite !lookup_insert_ne by exact Hne. apply (IH acc eq_refl).
Qed.

Lemma map_traverse_lookup `{Countable K} {A B} (f : A → res B) (m : gmap K A)
    m' k b :
  map_traverse f m = Ok m' → m' !! k = Some b →
  ∃ a, m !! k = Some a ∧ f a = Ok b.
Proof.
  intros Hm Hk. rewrite (map_traverse_Ok f m m' Hm k) in Hk.
  destruct (m !! k) as [a|]; cbn in Hk; [|discriminate].
  exists a. split; [reflexivity|].
  destruct (f a); [injection Hk as ->; reflexivity|discriminate].
Qed.

Lemma finalize_lookup inv out cc crops crop info :
  finalize inv = Ok out → out !! cc = Some crops → crops !! crop = Some info →
  ∃ a, inv_lookup inv cc crop = Some a ∧ finalize_aggregate a = Ok info.
Proof.
  intros Hout Hcc Hcrop.
  destruct (map_traverse_lookup _ _ _ _ _ Hout Hcc) as (crops0 & H0 & Hcrops).
  destruct (map_traverse_lookup _ _ _ _ _ Hcrops Hcrop) as (a & Ha & Hinfo).
  exists a. split; [|exact Hinfo]. unfold inv_lookup. rewrite H0. exact Ha.
Qed.

Lemma finalize_aggregate_inv a info :
  finalize_aggregate a = Ok info →
  sorted (fun x y => Ok (x <? y)) (elements (years a)) = Ok (o_years info)
  ∧ sorted py_lt (elements (seasonality a)) = Ok (o_seasonality info)
  ∧ sorted py_lt (elements (regions a)) = Ok (o_regions info)
  ∧ sorted py_lt (elements (data_sources a)) = Ok (o_data_sources info)
  ∧ sorted py_lt (elements (indicators a)) = Ok (o_indicators info)
  ∧ o_area_planted info = area_planted a
  ∧ o_area_harvested info = area_harvested a
  ∧ o_quantity_produced info = quantity_produced a
  ∧ o_production info = production a.
Proof.
  unfold finalize_aggregate. intros H.
  destruct (sorted _ (elements (years a))) as [ys|]; cbn in H; [|discriminate].
  destruct (sorted py_lt (elements (seasonality a))) as [ss|]; cbn in H; [|discriminate].
  destruct (sorted py_lt (elements (regions a))) as [rs|]; cbn in H; [|discriminate].
  destruct (sorted py_lt (elements (data_sources a))) as [ds|]; cbn in H; [|discriminate].
  destruct (sorted py_lt (elements (indicators a))) as [ins|]; cbn in H; [|discriminate].
  injection H as <-. cbn. repeat split; reflexivity.
Qed.

(** ** Seasons and sources are never empty *)

Lemma union_nonempty_r `{Countable A} (X Y : gset A) : Y ≠ ∅ → X ∪ Y ≠ ∅.
Proof. intros HY E. apply HY. apply empty_union_L in E. apply E. Qed.

Lemma row_effect_labelled r cc crop c :
  row_effect r = Some (cc, crop, c) →
  seasonality c ≠ ∅ ∧ data_sources c ≠ ∅.
Proof.
  unfold row_effect.
  destruct (pd_isna (row_get r "country_code" VNone)); [discriminate|].
  destruct (classify _ _) as [fl|]; [|discriminate].
  intros [= _ _ <-]. unfold contribution; cbn [seasonality data_sources].
  split; apply non_empty_singleton_L.
Qed.

Lemma inventory_step_labelled inv r :
  (∀ cc crop a, inv_lookup inv cc crop = Some a →
     seasonality a ≠ ∅ ∧ data_sources a ≠ ∅) →
  ∀ cc crop a, inv_lookup (inventory_step inv r) cc crop = Some a →
     seasonality a ≠ ∅ ∧ data_sources a ≠ ∅.
Proof.
  intros Hinv cc crop a. rewrite inventory_step_lookup.
  destruct (row_effect r) as [[[cc' crop'] c]|] eqn:Er; [|apply Hinv].
  case_decide; [|apply Hinv]. intros [= <-].
  destruct (row_effect_labelled _ _ _ _ Er) as [Hs Hd].
  unfold agg_union; cbn [seasonality data_sources].
  split; apply union_nonempty_r; assumption.
Qed.

Lemma inventory_steps_labelled rows : ∀ inv,
  (∀ cc crop a, inv_lookup inv cc crop = Some a →
     seasonality a ≠ ∅ ∧ data_sources a ≠ ∅) →
  ∀ cc crop a, inv_lookup (fold_left inventory_step rows inv) cc crop = Some a →
     seasonality a ≠ ∅ ∧ data_sources a ≠ ∅.
Proof.
  induction rows as [|r rows IH]; intros inv Hinv; [exact Hinv|].
  cbn [fold_left]. apply IH, inventory_step_labelled, Hinv.
Qed.

Lemma scan_labelled files cc crop a :
  inv_lookup (inventory (scan files)) cc crop = Some a →
  seasonality a ≠ ∅ ∧ data_sources a ≠ ∅.
Proof.
  unfold scan. rewrite inventory_process_files.
  apply inventory_steps_labelled. intros cc' crop' a'.
  unfold inv_lookup. cbn [inventory initial_state]. rewrite lookup_empty.
  discriminate.
Qed.

(** C10 (no empty seasonality or data_sources).  Every aggregate of the
    inventory the walk builds has a non-empty [seasonality] set and a
    non-empty [data_sources] set; and in what [create_crop_inventory] returns,
    every entry has a non-empty [seasonality] list and a non-empty
    [data_sources] list. *)
Theorem seasonality_and_sources_nonempty (files : list csv_file) :
  (∀ cc crop a, inv_lookup (inventory (scan files)) cc crop = Some a →
     seasonality a ≠ ∅ ∧ data_sources a ≠ ∅)
  ∧ (∀ out cc crops crop info,
       create_crop_inventory files = Ok out →
       out !! cc = Some crops → crops !! crop = Some info →
       o_seasonality info ≠ [] ∧ o_data_sources info ≠ []).
Proof.
  split; [intros cc crop a; apply scan_labelled|].
  intros out cc crops crop info Hout Hcc Hcrop.
  destruct (finalize_lookup _ _ _ _ _ _ Hout Hcc Hcrop) as (a & Ha & Hinfo).
  destruct (scan_labelled _ _ _ _ Ha) as [Hs Hd].
  destruct (finalize_aggregate_inv _ _ Hinfo) as (_ & Es & _ & Ed & _).
  split.
  - exact (sorted_elements_nonempty _ _ _ Hs Es).
  - exact (sorted_elements_nonempty _ _ _ Hd Ed).
Qed.

Lemma seasonality_and_sources_nonempty_witness :
  let info := {| o_years := [2019; 2020]; o_seasonality := [VStr "Annual"];
                 o_area_planted := false; o_area_harvested := true;
                 o_quantity_produced := false; o_production := true;
                 o_regions := [VStr "National"];
                 o_data_sources := [VStr "Unknown"];
                 o_indicators := [VStr "Area Harvested"; VStr "Production"] |} in
  let crops : gmap value aggregate_out := {[ VStr "Maize" := info ]} in
  let out : inventory_out := {[ VStr "KE" := crops ]} in
  create_crop_inventory [file_a] = Ok out
  ∧ out !! VStr "KE" = Some crops
  ∧ crops !! VStr "Maize" = Some info
  ∧ o_seasonality info ≠ [] ∧ o_data_sources info ≠ [].
Proof.
  intros info crops out.
  assert (Hout : create_crop_inventory [file_a] = Ok out)
    by (vm_compute; reflexivity).
  assert (Hcc : out !! VStr "KE" = Some crops) by apply lookup_singleton_eq.
  assert (Hcrop : crops !! VStr "Maize" = Some info) by apply lookup_singleton_eq.
  split; [exact Hout|]. split; [exact Hcc|]. split; [exact Hcrop|].
  exact (proj2 (seasonality_and_sources_nonempty [file_a])
           out (VStr "KE") crops (VStr "Maize") info Hout Hcc Hcrop).
Defined.

(** ** The summary record *)

Lemma completeness_of_steps info :
  completeness_of info = (float_of_Z (indicators_true info) * 25)%float
  ∧ 0 ≤ indicators_true info ≤ 4.
Proof.
  unfold completeness_of, indicators_true, bool_to_Z.
  destruct (o_area_planted info), (o_area_harvested info),
    (o_quantity_produced info), (o_production info);
    (split; [vm_compute; reflexivity | lia]).
Qed.

Lemma make_record_completeness cc crop info rec :
  make_record cc crop info = Ok rec → s_completeness rec = completeness_of info.
Proof.
  unfold make_record. intros H.
  destruct (match o_seasonality info with [] => _ | _ => _ end) as [seasons|];
    cbn [mbind res_bind] in H; [|discriminate].
  destruct (if (length (o_data_sources info) <=? 3)%nat then _ else _) as [sources|];
    cbn [mbind res_bind] in H; [|discriminate].
  injection H as <-. reflexivity.
Qed.

Lemma py_join_text sep l :
  Forall (fun v => is_Some (text_of v)) l → ∃ s, py_join sep l = Ok s.
Proof.
  induction 1 as [|v l [s Hv] Hl [t IH]]; [exists ""; reflexivity|].
  destruct v; try discriminate. cbn [py_join].
  destruct l as [|w l]; [eexists; reflexivity|].
  rewrite IH. eexists; reflexivity.
Qed.

Lemma make_record_text cc crop info :
  Forall (fun v => is_Some (text_of v)) (o_seasonality info) →
  Forall (fun v => is_Some (text_of v)) (o_data_sources info) →
  ∃ rec, make_record cc crop info = Ok rec.
Proof.
  intros Hs Hd. unfold make_record.
  destruct (py_join_text ", " _ Hs) as [s Es].
  destruct (py_join_text "; " _ Hd) as [d Ed].
  assert (E1 : ∃ s', match o_seasonality info with
                     | [] => Ok "N/A"
                     | _ :: _ => py_join ", " (o_seasonality info)
                     end = Ok s').
  { destruct (o_seasonality info); eauto. }
  destruct E1 as [s' ->]. cbn [mbind res_bind].
  destruct (length (o_data_sources info) <=? 3)%nat; [rewrite Ed|];
    cbn [mbind res_bind]; eexists; reflexivity.
Qed.

Lemma completeness_of_literal info :
  completeness_of info
  = spec_completeness
      (count_true [o_area_planted info; o_area_harvested info;
                   o_quantity_produced info; o_production info])
  ∧ (count_true [o_area_planted info; o_area_harvested info;
                 o_quantity_produced info; o_production info] <= 4)%nat.
Proof.
  unfold completeness_of, indicators_true, bool_to_Z, count_true.
  destruct (o_area_planted info), (o_area_harvested info),
    (o_quantity_produced info), (o_production info);
    (split; [vm_compute; reflexivity | cbn; lia]).
Qed.

(** C3 (completeness formula).  For an aggregate with exactly [k] of its four
    booleans true (each of the four counted on its own), [k] is at most 4 and
    the record the projector builds has [completeness] equal to [k × 25.0],
    that is 0.0, 25.0, 50.0, 75.0 or 100.0 (in binary64, as the code computes
    it); the projector does build a record whenever the season and source
    labels are text. *)
Theorem completeness_formula (country_code crop_name : value)
    (info : aggregate_out) (k : nat) :
  count_true [o_area_planted info; o_area_harvested info;
              o_quantity_produced info; o_production info] = k →
  (k <= 4)%nat
  ∧ (∀ rec, make_record country_code crop_name info = Ok rec →
            s_completeness rec = spec_completeness k)
  ∧ (Forall (fun v => is_Some (text_of v)) (o_seasonality info) →
     Forall (fun v => is_Some (text_of v)) (o_data_sources info) →
     ∃ rec, make_record country_code crop_name info = Ok rec
            ∧ s_completeness rec = spec_completeness k).
Proof.
  intros <-. destruct (completeness_of_literal info) as [E Hk].
  split; [exact Hk|]. split.
  - intros rec Hrec. rewrite (make_record_completeness _ _ _ _ Hrec). exact E.
  - intros Hs Hd. destruct (make_record_text country_code crop_name info Hs Hd)
      as [rec Hrec].
    exists rec. split; [exact Hrec|].
    rewrite (make_record_completeness _ _ _ _ Hrec). exact E.
Qed.

Lemma completeness_formula_witness :
  let info := {| o_years := [2019; 2020]; o_seasonality := [VStr "Annual"];
                 o_area_planted := false; o_area_harvested := true;
                 o_quantity_produced := false; o_production := true;
                 o_regions := [VStr "National"];
                 o_data_sources := [VStr "Unknown"];
                 o_indicators := [VStr "Area Harvested"; VStr "Production"] |} in
  count_true [o_area_planted info; o_area_harvested info;
              o_quantity_produced info; o_production info] = 2%nat
  ∧ (2 <= 4)%nat
  ∧ (∀ rec, make_record (VStr "KE") (VStr "Maize") info = Ok rec →
            s_completeness rec = 50%float)
  ∧ ∃ rec, make_record (VStr "KE") (VStr "Maize") info = Ok rec
           ∧ s_completeness rec = 50%float.
Proof.
  intros info. split; [reflexivity|].
  destruct (completeness_formula (VStr "KE") (VStr "Maize") info 2 eq_refl)
    as (Hk & Hrec & Hex).
  split; [exact Hk|]. split; [exact Hrec|].
  apply Hex; repeat constructor; eexists; reflexivity.
Defined.

(** ** The classifier *)

Lemma any_flag_false fl : any_flag fl = false → fl = no_flags.
Proof.
  destruct fl as [[] [] [] []]; cbn; intros H; try discriminate H. reflexivity.
Qed.

Lemma classify_indicator_text s :
  classify_indicator (VStr s) = Ok (spec_indicator_rules s).
Proof. reflexivity. Qed.

Lemma classify_group_text fl t :
  classify_group fl (VStr t) =
  Ok (if any_flag fl then fl else spec_group_rules t).
Proof.
  unfold classify_group. destruct (any_flag fl) eqn:E; [reflexivity|].
  rewrite (any_flag_false fl E). cbn. unfold spec_group_rules. cbn.
  f_equal. f_equal;
    match goal with |- (if ?c then true else false) = _ => destruct c; reflexivity end.
Qed.

Lemma classify_group_missing fl g :
  pd_isna g = true → classify_group fl g = Ok fl.
Proof.
  intros H. unfold classify_group. rewrite H.
  destruct (any_flag fl); reflexivity.
Qed.

Lemma classify_text indicator group :
  text_or_missing indicator = true → text_or_missing group = true →
  classify indicator group = Ok (spec_classify (text_of indicator) (text_of group)).
Proof.
  intros Hi Hg. unfold classify, spec_classify.
  assert (Hfl : ∃ fl, classify_indicator indicator = Ok fl
                ∧ from_option spec_indicator_rules no_flags (text_of indicator) = fl).
  { destruct indicator; try discriminate Hi; eexists; split; reflexivity. }
  destruct Hfl as (fl & -> & ->). cbn [mbind res_bind].
  destruct group as [| |t|z]; try discriminate Hg.
  - rewrite classify_group_missing by reflexivity. cbn [text_of from_option].
    destruct (any_flag fl) eqn:E; [reflexivity|].
    rewrite (any_flag_false fl E). reflexivity.
  - rewrite classify_group_missing by reflexivity. cbn [text_of from_option].
    destruct (any_flag fl) eqn:E; [reflexivity|].
    rewrite (any_flag_false fl E). reflexivity.
  - rewrite classify_group_text. reflexivity.
Qed.

(** *** Case-insensitive occurrence, and what [lower] and [in] compute *)

Lemma code_inj c d : code c = code d → c = d.
Proof.
  unfold code. intros H. rewrite <- (ascii_nat_embedding c), <- (ascii_nat_embedding d).
  rewrite H. reflexivity.
Qed.

Lemma lower_char_upper c :
  (65 <= code c <= 90)%nat → code (lower_char c) = (code c + 32)%nat.
Proof.
  intros H. unfold lower_char.
  destruct (Nat.leb_spec 65 (code c)); [|lia].
  destruct (Nat.leb_spec (code c) 90); [|lia]. cbn [andb].
  unfold code. apply nat_ascii_embedding. fold (code c). lia.
Qed.

Lemma lower_char_other c :
  ¬ (65 <= code c <= 90)%nat → lower_char c = c.
Proof.
  intros H. unfold lower_char.
  destruct (Nat.leb_spec 65 (code c)); [|reflexivity].
  destruct (Nat.leb_spec (code c) 90); [lia|reflexivity].
Qed.

Lemma same_letter_lower c d : same_letter c d ↔ lower_char c = lower_char d.
Proof.
  split.
  - intros [->|[[Hc Hd]|[Hd Hc]]]; [reflexivity| |].
    + apply code_inj. rewrite (lower_char_upper c Hc).
      rewrite (lower_char_other d) by lia. symmetry; exact Hd.
    + apply code_inj. rewrite (lower_char_upper d Hd).
      rewrite (lower_char_other c) by lia. exact Hc.
  - intros H. unfold same_letter.
    destruct (decide (65 <= code c <= 90)%nat) as [Hc|Hc];
      destruct (decide (65 <= code d <= 90)%nat) as [Hd|Hd].
    + left. apply code_inj. apply (f_equal code) in H.
      rewrite (lower_char_upper c Hc), (lower_char_upper d Hd) in H. lia.
    + right; left. split; [exact Hc|]. apply (f_equal code) in H.
      rewrite (lower_char_upper c Hc), (lower_char_other d Hd) in H. lia.
    + right; right. split; [exact Hd|]. apply (f_equal code) in H.
      rewrite (lower_char_upper d Hd), (lower_char_other c Hc) in H. lia.
    + left. rewrite (lower_char_other c Hc), (lower_char_other d Hd) in H. exact H.
Qed.

Lemma same_text_lower s t : same_text s t ↔ lower s = lower t.
Proof.
  split.
  - induction 1 as [|c d s t Hcd _ IH]; [reflexivity|].
    cbn [lower]. apply same_letter_lower in Hcd. rewrite Hcd, IH. reflexivity.
  - revert t. induction s as [|c s IH]; intros [|d t] H; cbn [lower] in H;
      try discriminate; [constructor|].
    injection H as Hc Hs. constructor; [apply same_letter_lower, Hc|apply IH, Hs].
Qed.

Lemma append_cons c s t : String c s +:+ t = String c (s +:+ t).
Proof. reflexivity. Qed.

Lemma append_nil t : "" +:+ t = t.
Proof. reflexivity. Qed.

Lemma lower_app s t : lower (s +:+ t) = lower s +:+ lower t.
Proof.
  induction s as [|c s IH]; [reflexivity|].
  rewrite append_cons. cbn [lower]. rewrite append_cons, IH. reflexivity.
Qed.

Lemma lower_split t : ∀ a b, lower t = a +:+ b →
  ∃ t1 t2, t = t1 +:+ t2 ∧ lower t1 = a ∧ lower t2 = b.
Proof.
  intros a. revert t. induction a as [|c a IH]; intros t b H.
  - exists "", t. repeat split. exact H.
  - destruct t as [|d t]; [discriminate|]. rewrite append_cons in H.
    cbn [lower] in H. injection H as Hc Ht.
    destruct (IH t b Ht) as (t1 & t2 & -> & H1 & H2).
    exists (String d t1), t2. repeat split; [cbn [lower]; rewrite Hc, H1; reflexivity|exact H2].
Qed.

Lemma prefix_spec sub : ∀ s, String.prefix sub s = true ↔ ∃ post, s = sub +:+ post.
Proof.
  induction sub as [|c sub IH]; intros s.
  - split; [intros _; exists s; reflexivity|]. intros _. destruct s; reflexivity.
  - destruct s as [|d s]; cbn [String.prefix].
    + split; [discriminate|]. intros [post H]. discriminate.
    + destruct (Ascii.ascii_dec c d) as [->|Hne].
      * rewrite IH. split; intros [post H]; exists post.
        -- rewrite append_cons, H. reflexivity.
        -- rewrite append_cons in H. injection H as H. exact H.
      * split; [discriminate|]. intros [post H]. rewrite append_cons in H.
        injection H as H _. congruence.
Qed.

Lemma contains_spec sub s :
  contains sub s = true ↔ ∃ pre post, s = pre +:+ sub +:+ post.
Proof.
  induction s as [|d s IH]; cbn [contains].
  - rewrite orb_false_r, prefix_spec. split.
    + intros [post H]. exists "", post. exact H.
    + intros (pre & post & H). destruct pre; [exists post; exact H|discriminate].
  - rewrite orb_true_iff, prefix_spec, IH. split.
    + intros [[post H]|(pre & post & H)].
      * exists "", post. exact H.
      * exists (String d pre), post. rewrite append_cons, H. reflexivity.
    + intros (pre & post & H). destruct pre as [|c pre].
      * left. exists post. exact H.
      * right. rewrite append_cons in H. injection H as _ H. exists pre, post. exact H.
Qed.

Lemma contains_lower_occurs kw t :
  lower kw = kw → contains kw (lower t) = true ↔ occurs_ci kw t.
Proof.
  intros Hkw. rewrite contains_spec. unfold occurs_ci. split.
  - intros (pre' & post' & H).
    destruct (lower_split t _ _ H) as (pre & rest & -> & _ & Hrest).
    destruct (lower_split rest _ _ Hrest) as (mid & post & -> & Hmid & _).
    exists pre, mid, post. split; [reflexivity|].
    apply same_text_lower. rewrite Hmid, Hkw. reflexivity.
  - intros (pre & mid & post & -> & Hm). apply same_text_lower in Hm.
    exists (lower pre), (lower post). rewrite !lower_app, Hm, Hkw. reflexivity.
Qed.

Lemma mentions_Some kw t :
  lower kw = kw → mentions (Some t) kw ↔ contains kw (lower t) = true.
Proof.
  intros Hkw. rewrite (contains_lower_occurs kw t Hkw). unfold mentions. split.
  - intros (t' & [= <-] & H). exact H.
  - intros H. exists t. split; [reflexivity|exact H].
Qed.

Lemma mentions_None kw : ¬ mentions None kw.
Proof. intros (t & H & _). discriminate. Qed.

Lemma indicator_rules_spec i :
  let fl := from_option spec_indicator_rules no_flags i in
  (f_area_planted fl = true ↔ says_planted i)
  ∧ (f_area_harvested fl = true ↔ says_harvested i)
  ∧ (f_production fl = true ↔ says_production i)
  ∧ (f_quantity_produced fl = true ↔ says_quantity i).
Proof.
  unfold says_planted, says_harvested, says_production, says_quantity.
  destruct i as [t|]; cbn [from_option].
  - unfold spec_indicator_rules;
      cbn [f_area_planted f_area_harvested f_production f_quantity_produced].
    rewrite !orb_true_iff, !mentions_Some by reflexivity. tauto.
  - cbn [no_flags f_area_planted f_area_harvested f_production f_quantity_produced].
    repeat split; try discriminate; intros H; exfalso;
      repeat (destruct H as [H|H]; [exact (mentions_None _ H)|]);
      exact (mentions_None _ H).
Qed.

Lemma group_rules_spec g :
  let fl := from_option spec_group_rules no_flags g in
  (f_area_planted fl = true ↔ mentions g "area")
  ∧ (f_area_harvested fl = true ↔ mentions g "area")
  ∧ (f_production fl = true ↔ mentions g "production")
  ∧ (f_quantity_produced fl = true ↔ mentions g "quantity" ∨ mentions g "yield").
Proof.
  destruct g as [t|]; cbn [from_option].
  - unfold spec_group_rules;
      cbn [f_area_planted f_area_harvested f_production f_quantity_produced].
    rewrite !orb_true_iff, !mentions_Some by reflexivity. tauto.
  - cbn [no_flags f_area_planted f_area_harvested f_production f_quantity_produced].
    repeat split; try discriminate; intros H; exfalso;
      repeat (destruct H as [H|H]; [exact (mentions_None _ H)|]);
      exact (mentions_None _ H).
Qed.

Lemma spec_classify_flags i g : spec_flags i g (spec_classify i g).
Proof.
  unfold spec_flags, spec_classify, says_anything.
  destruct (indicator_rules_spec i) as (I1 & I2 & I3 & I4).
  destruct (group_rules_spec g) as (G1 & G2 & G3 & G4).
  cbv zeta in I1, I2, I3, I4, G1, G2, G3, G4 |- *.
  destruct (any_flag (from_option spec_indicator_rules no_flags i)) eqn:E.
  - assert (Hany : says_planted i ∨ says_harvested i ∨ says_production i
                   ∨ says_quantity i).
    { unfold any_flag in E. rewrite !orb_true_iff in E. tauto. }
    tauto.
  - assert (Hnone : ¬ (says_planted i ∨ says_harvested i ∨ says_production i
                       ∨ says_quantity i)).
    { unfold any_flag in E. rewrite !orb_false_iff in E.
      destruct E as [[[E1 E2] E3] E4].
      rewrite <- I1, <- I2, <- I3, <- I4, E1, E2, E3, E4.
      intros [H|[H|[H|H]]]; discriminate. }
    tauto.
Qed.

(** C5 (row classifier).  On a row whose indicator and indicator-group
    cells are text or missing, the classifier returns, and the four booleans
    it returns are those of the specification: [area_planted] when the
    indicator text contains, in any letter case, "planted", "planting" or
    "area planted"; [area_harvested] for "harvested", "harvesting" or "area
    harvested"; [production] for "yield" or "production"; [quantity_produced]
    for "quantity", "volume" or "output", each on its own; and when the
    indicator text is missing or sets none of the four, the group text
    decides: "area" sets both area booleans, "production" sets production,
    "quantity" or "yield" sets quantity_produced; all four are false when
    neither says anything. *)
Theorem classifier_follows_rules (r : row) :
  text_or_missing (row_get r "indicator" (VStr "")) = true →
  text_or_missing (row_get r "indicator_group" (VStr "")) = true →
  ∃ fl, classify (row_get r "indicator" (VStr ""))
                 (row_get r "indicator_group" (VStr "")) = Ok fl
        ∧ spec_flags (text_of (row_get r "indicator" (VStr "")))
                     (text_of (row_get r "indicator_group" (VStr ""))) fl.
Proof.
  intros Hi Hg. eexists. split; [apply classify_text; assumption|].
  apply spec_classify_flags.
Qed.

(** ** Year extraction *)

Lemma make_date_year y m d dt : make_date y m d = Ok dt → 1 ≤ dt_year dt ≤ 9999.
Proof.
  unfold make_date.
  destruct ((1 <=? y) && (y <=? 9999) && (1 <=? m) && (m <=? 12) && (1 <=? d)
            && (d <=? days_in_month y m)) eqn:E; [|discriminate].
  intros [= <-]. cbn [dt_year].
  repeat (apply andb_prop in E; destruct E as [E ?]). lia.
Qed.

Lemma strptime_year v fmt dt : strptime v fmt = Ok dt → 1 ≤ dt_year dt ≤ 9999.
Proof.
  destruct v; try discriminate. cbn [strptime]. unfold strptime_text.
  destruct (match_format fmt no_groups (chars s)) as [|[g rest] ?]; [discriminate|].
  destruct rest; [|discriminate]. apply make_date_year.
Qed.

Lemma strptime_missing v fmt : pd_isna v = true → strptime v fmt = Raise TypeError.
Proof. destruct v; try discriminate; reflexivity. Qed.

Lemma try_formats_head v fmts year :
  try_formats v fmts year =
  match head (omap (fun fmt => match strptime v fmt with
                               | Ok dt => Some (dt_year dt)
                               | Raise _ => None
                               end) fmts) with
  | Some y => Some y
  | None => year
  end.
Proof.
  induction fmts as [|fmt fmts IH]; [reflexivity|].
  cbn [try_formats omap list_omap]. destruct (strptime v fmt); [reflexivity|exact IH].
Qed.

Lemma try_formats_truthy v fmts y :
  try_formats v fmts None = Some y → truthy_year (Some y) = true.
Proof.
  induction fmts as [|fmt fmts IH]; [discriminate|]. cbn [try_formats].
  destruct (strptime v fmt) as [dt|] eqn:E; [|exact IH].
  intros [= <-]. apply strptime_year in E. cbn.
  destruct (Z.eqb_spec (dt_year dt) 0); [lia|reflexivity].
Qed.

Lemma try_formats_missing v fmts year :
  pd_isna v = true → try_formats v fmts year = year.
Proof.
  intros H. induction fmts as [|fmt fmts IH]; [reflexivity|].
  cbn [try_formats]. rewrite (strptime_missing v fmt H). exact IH.
Qed.

(** The attempts of one field, flattened as the specification lists them. *)
Lemma scan_date_fields_head r fields :
  scan_date_fields r fields None =
  head (omap (parse_year r) (field ← fields; fmt ← date_formats; [(field, fmt)])).
Proof.
  induction fields as [|field fields IH]; [reflexivity|].
  cbn [scan_date_fields]. rewrite bind_cons, omap_app.
  assert (E : omap (parse_year r) (fmt ← date_formats; [(field, fmt)])
            = omap (fun fmt => match strptime (row_get r field VNone) fmt with
                               | Ok dt => Some (dt_year dt)
                               | Raise _ => None
                               end) date_formats).
  { reflexivity. }
  rewrite E. clear E.
  destruct (pd_isna (row_get r field VNone)) eqn:Hna; cbn [negb].
  - rewrite IH.
    assert (E : omap (fun fmt => match strptime (row_get r field VNone) fmt with
                               | Ok dt => Some (dt_year dt)
                               | Raise _ => None
                               end) date_formats = []).
    { unfold date_formats. cbn [omap list_omap].
      rewrite !(strptime_missing _ _ Hna). reflexivity. }
    rewrite E. reflexivity.
  - pose proof (try_formats_head (row_get r field VNone) date_formats None) as Hh.
    destruct (try_formats (row_get r field VNone) date_formats None) as [y|] eqn:Et.
    + rewrite (try_formats_truthy _ _ _ Et).
      destruct (omap _ date_formats) as [|y' l]; [discriminate Hh|].
      cbn in Hh |- *. exact Hh.
    + cbn [truthy_year]. rewrite IH.
      destruct (omap _ date_formats) as [|y' l]; [reflexivity|discriminate Hh].
Qed.

Lemma extract_year_spec r :
  extract_year r =
  if pd_isna (row_get r "season_year" VNone) then None else spec_extract_year r.
Proof.
  unfold extract_year, spec_extract_year, first_date_parse.
  destruct (pd_isna (row_get r "season_year" VNone)); cbn [negb]; [reflexivity|].
  destruct (py_int (row_get r "season_year" VNone)); cbn [mbind res_bind try_except];
    [reflexivity|].
  change date_attempts
    with (field ← date_fields; fmt ← date_formats; [(field, fmt)]).
  apply scan_date_fields_head.
Qed.

Lemma classifier_follows_rules_witness :
  (text_or_missing (row_get row_upper_harvested "indicator" (VStr "")) = true
   ∧ text_or_missing (row_get row_upper_harvested "indicator_group" (VStr "")) = true
   ∧ (∃ fl, classify (row_get row_upper_harvested "indicator" (VStr ""))
                     (row_get row_upper_harvested "indicator_group" (VStr ""))
            = Ok fl
            ∧ spec_flags (Some "AREA Harvested (ha)") (Some "Production") fl)
   ∧ classify (row_get row_upper_harvested "indicator" (VStr ""))
              (row_get row_upper_harvested "indicator_group" (VStr ""))
     = Ok {| f_area_planted := false; f_area_harvested := true;
             f_quantity_produced := false; f_production := false |})
  ∧ (text_or_missing (row_get row_group_only "indicator" (VStr "")) = true
     ∧ text_or_missing (row_get row_group_only "indicator_group" (VStr "")) = true
     ∧ (∃ fl, classify (row_get row_group_only "indicator" (VStr ""))
                       (row_get row_group_only "indicator_group" (VStr ""))
              = Ok fl
              ∧ spec_flags None (Some "Crop Area") fl)
     ∧ classify (row_get row_group_only "indicator" (VStr ""))
                (row_get row_group_only "indicator_group" (VStr ""))
       = Ok {| f_area_planted := true; f_area_harvested := true;
               f_quantity_produced := false; f_production := false |}).
Proof.
  assert (H1 : text_or_missing (row_get row_upper_harvested "indicator" (VStr ""))
               = true) by vm_cast_no_check (eq_refl true).
  assert (H2 : text_or_missing
                 (row_get row_upper_harvested "indicator_group" (VStr ""))
               = true) by vm_cast_no_check (eq_refl true).
  assert (H3 : text_or_missing (row_get row_group_only "indicator" (VStr "")) = true)
    by vm_cast_no_check (eq_refl true).
  assert (H4 : text_or_missing (row_get row_group_only "indicator_group" (VStr ""))
               = true) by vm_cast_no_check (eq_refl true).
  split.
  - split; [exact H1|]. split; [exact H2|]. split.
    + exact (classifier_follows_rules row_upper_harvested H1 H2).
    + vm_cast_no_check
        (eq_refl (Ok {| f_area_planted := false; f_area_harvested := true;
                        f_quantity_produced := false; f_production := false |})).
  - split; [exact H3|]. split; [exact H4|]. split.
    + exact (classifier_follows_rules row_group_only H3 H4).
    + vm_cast_no_check
        (eq_refl (Ok {| f_area_planted := true; f_area_harvested := true;
                        f_quantity_produced := false; f_production := false |})).
Defined.

(** ** What an aggregated row contributes *)

Lemma process_row_aggregated st r fl :
  pd_isna (row_get r "country_code" VNone) = false →
  classify (row_get r "indicator" (VStr "")) (row_get r "indicator_group" (VStr ""))
  = Ok fl →
  error_count (process_row st r) = error_count st
  ∧ inv_lookup (inventory (process_row st r))
      (row_get r "country_code" VNone) (extract_crop r)
    = Some (agg_union
              (default new_aggregate
                 (inv_lookup (inventory st) (row_get r "country_code" VNone)
                    (extract_crop r)))
              (contribution (extract_year r) (extract_season r) fl
                 (extract_region r) (extract_source r)
                 (row_get r "indicator" (VStr "")))).
Proof.
  intros Hcc Hfl. split.
  - unfold process_row. rewrite Hcc, Hfl. reflexivity.
  - rewrite inventory_process_row, inventory_step_lookup.
    unfold row_effect. rewrite Hcc, Hfl. rewrite decide_True by (split; reflexivity).
    reflexivity.
Qed.

Lemma process_row_failed st r e :
  pd_isna (row_get r "country_code" VNone) = false →
  classify (row_get r "indicator" (VStr "")) (row_get r "indicator_group" (VStr ""))
  = Raise e →
  error_count (process_row st r) = error_count st + 1
  ∧ inventory (process_row st r) = inventory st.
Proof.
  intros Hcc Hfl. unfold process_row. rewrite Hcc, Hfl. split; reflexivity.
Qed.

Lemma contribution_no_year season fl region source indicator a :
  let a' := agg_union a (contribution None season fl region source indicator) in
  years a' = years a
  ∧ season ∈ seasonality a'
  ∧ source ∈ data_sources a'
  ∧ (truthy region = true → region ∈ regions a')
  ∧ (pd_isna indicator = false → indicator ∈ indicators a')
  ∧ area_planted a' = area_planted a || f_area_planted fl
  ∧ area_harvested a' = area_harvested a || f_area_harvested fl
  ∧ quantity_produced a' = quantity_produced a || f_quantity_produced fl
  ∧ production a' = production a || f_production fl.
Proof.
  unfold agg_union, contribution;
    cbn [years seasonality area_planted area_harvested
         quantity_produced production regions data_sources indicators].
  split; [apply (right_id_L ∅ (∪))|].
  split; [apply elem_of_union_r, elem_of_singleton; reflexivity|].
  split; [apply elem_of_union_r, elem_of_singleton; reflexivity|].
  split; [intros ->; apply elem_of_union_r, elem_of_singleton; reflexivity|].
  split; [intros ->; apply elem_of_union_r, elem_of_singleton; reflexivity|].
  repeat split; reflexivity.
Qed.

(** C4, as the code has it.  When [season_year] is not missing, the year is
    [int(season_year)] (an integer cell gives that integer), and when that
    raises, the first successful parse over [start_date], [period_date],
    [harvest_end_date] in that order, each tried against [%Y-%m-%d],
    [%m/%d/%Y], [%d/%m/%Y], [%Y] in that order; when [season_year] is missing
    the date fields are not read and the year is unknown.  A row with an
    unknown year that is aggregated (country code present, classification not
    raising) leaves [years] as it was and still adds its season, source,
    region (when truthy), indicator label (when present) and its four
    booleans. *)
Theorem year_extraction_as_coded (st : run_state) (r : row) (fl : flags) :
  extract_year r
  = (if pd_isna (row_get r "season_year" VNone) then None else spec_extract_year r)
  ∧ (∀ z, row_get r "season_year" VNone = VInt z → extract_year r = Some z)
  ∧ (pd_isna (row_get r "country_code" VNone) = false →
     classify (row_get r "indicator" (VStr "")) (row_get r "indicator_group" (VStr ""))
     = Ok fl →
     extract_year r = None →
     ∃ a', inv_lookup (inventory (process_row st r))
             (row_get r "country_code" VNone) (extract_crop r) = Some a'
       ∧ years a'
         = years (default new_aggregate
                    (inv_lookup (inventory st) (row_get r "country_code" VNone)
                       (extract_crop r)))
       ∧ extract_season r ∈ seasonality a'
       ∧ extract_source r ∈ data_sources a'
       ∧ (truthy (extract_region r) = true → extract_region r ∈ regions a')
       ∧ (pd_isna (row_get r "indicator" (VStr "")) = false →
          row_get r "indicator" (VStr "") ∈ indicators a')
       ∧ area_planted a'
         = area_planted (default new_aggregate
                           (inv_lookup (inventory st)
                              (row_get r "country_code" VNone) (extract_crop r)))
           || f_area_planted fl
       ∧ area_harvested a'
         = area_harvested (default new_aggregate
                             (inv_lookup (inventory st)
                                (row_get r "country_code" VNone) (extract_crop r)))
           || f_area_harvested fl
       ∧ quantity_produced a'
         = quantity_produced (default new_aggregate
                                (inv_lookup (inventory st)
                                   (row_get r "country_code" VNone)
                                   (extract_crop r)))
           || f_quantity_produced fl
       ∧ production a'
         = production (default new_aggregate
                         (inv_lookup (inventory st)
                            (row_get r "country_code" VNone) (extract_crop r)))
           || f_production fl).
Proof.
  split; [apply extract_year_spec|]. split.
  { intros z Hz. unfold extract_year. rewrite Hz. reflexivity. }
  intros Hcc Hfl Hy.
  destruct (process_row_aggregated st r fl Hcc Hfl) as [_ Ha].
  rewrite Hy in Ha. eexists. split; [exact Ha|].
  destruct (contribution_no_year (extract_season r) fl (extract_region r)
              (extract_source r) (row_get r "indicator" (VStr ""))
              (default new_aggregate
                 (inv_lookup (inventory st) (row_get r "country_code" VNone)
                    (extract_crop r))))
    as (H1 & H2 & H3 & H4 & H5 & H6 & H7 & H8 & H9).
  repeat split; assumption.
Qed.

Lemma year_extraction_as_coded_witness :
  (pd_isna (row_get row_group_only "country_code" VNone) = false
   ∧ classify (row_get row_group_only "indicator" (VStr ""))
              (row_get row_group_only "indicator_group" (VStr ""))
     = Ok {| f_area_planted := true; f_area_harvested := true;
             f_quantity_produced := false; f_production := false |}
   ∧ extract_year row_group_only = None
   ∧ ∃ a', inv_lookup (inventory (process_row initial_state row_group_only))
             (VStr "KE") (VStr "Maize") = Some a'
       ∧ years a' = ∅
       ∧ VStr "Annual" ∈ seasonality a'
       ∧ VStr "Unknown" ∈ data_sources a'
       ∧ VStr "National" ∈ regions a'
       ∧ area_planted a' = true ∧ area_harvested a' = true
       ∧ quantity_produced a' = false ∧ production a' = false)
  ∧ extract_year row_harvested_2019 = Some 2019
  ∧ extract_year row_text_year = Some 2019
  ∧ extract_year row_bad_season_year = Some 2018
  ∧ extract_year row_dates_order = Some 2019
  ∧ extract_year row_us_date = Some 2017
  ∧ extract_year row_harvest_year_only = Some 2021
  ∧ extract_year row_no_season_year = None.
Proof.
  pose (fl := {| f_area_planted := true; f_area_harvested := true;
                 f_quantity_produced := false; f_production := false |}).
  assert (H1 : pd_isna (row_get row_group_only "country_code" VNone) = false)
    by vm_cast_no_check (eq_refl false).
  assert (H2 : classify (row_get row_group_only "indicator" (VStr ""))
                 (row_get row_group_only "indicator_group" (VStr "")) = Ok fl)
    by vm_cast_no_check (eq_refl (Ok fl)).
  assert (H3 : extract_year row_group_only = None)
    by vm_cast_no_check (eq_refl (@None Z)).
  split.
  - split; [exact H1|]. split; [exact H2|]. split; [exact H3|].
    destruct (proj2 (proj2 (year_extraction_as_coded initial_state row_group_only fl))
                H1 H2 H3)
      as (a' & Ha & Hy & Hs & Hd & Hr & _ & Hp & Hh & Hq & Hpr).
    exists a'.
    split; [exact Ha|]. split; [exact Hy|]. split; [exact Hs|]. split; [exact Hd|].
    split; [exact (Hr eq_refl)|].
    split; [exact Hp|]. split; [exact Hh|]. split; [exact Hq|exact Hpr].
  - split; [exact (proj1 (proj2 (year_extraction_as_coded initial_state
                                   row_harvested_2019 fl)) 2019 eq_refl)|].
    split; [vm_cast_no_check (eq_refl (Some 2019))|].
    split; [vm_cast_no_check (eq_refl (Some 2018))|].
    split; [vm_cast_no_check (eq_refl (Some 2019))|].
    split; [vm_cast_no_check (eq_refl (Some 2017))|].
    split; [vm_cast_no_check (eq_refl (Some 2021))|].
    vm_cast_no_check (eq_refl (@None Z)).
Defined.

(** C4 as stated fails: with [season_year] missing and
    [start_date = "2018-05-01"], the chain of the claim (parse failure,
    missing included, then the date fields) gives 2018, and the code gives no
    year. *)
Lemma missing_season_year_skips_dates :
  pd_isna (row_get row_no_season_year "season_year" VNone) = true
  ∧ row_get row_no_season_year "start_date" VNone = VStr "2018-05-01"
  ∧ spec_extract_year row_no_season_year = Some 2018
  ∧ extract_year row_no_season_year = None.
Proof. repeat split; vm_compute; reflexivity. Qed.

(** ** Rows without a usable year, and rows that fail *)

(** C9, as the code has it.  On a row whose year-related fields are all
    missing or unparseable the year comes out unknown.  If moreover the row
    has a country code and its indicator and indicator-group cells are text or
    missing, nothing reaches the row's exception handler (the error counter
    is unchanged) and the row's season and source are in the aggregate's
    [seasonality] and [data_sources], its region in [regions] when it is
    truthy, with [years] left as it was. *)
Theorem unknown_year_row_contributes (st : run_state) (r : row) :
  spec_extract_year r = None →
  extract_year r = None
  ∧ (pd_isna (row_get r "country_code" VNone) = false →
     text_or_missing (row_get r "indicator" (VStr "")) = true →
     text_or_missing (row_get r "indicator_group" (VStr "")) = true →
     error_count (process_row st r) = error_count st
     ∧ ∃ a', inv_lookup (inventory (process_row st r))
               (row_get r "country_code" VNone) (extract_crop r) = Some a'
         ∧ years a'
           = years (default new_aggregate
                      (inv_lookup (inventory st) (row_get r "country_code" VNone)
                         (extract_crop r)))
         ∧ extract_season r ∈ seasonality a'
         ∧ extract_source r ∈ data_sources a'
         ∧ (truthy (extract_region r) = true → extract_region r ∈ regions a')).
Proof.
  intros Hspec.
  assert (Hy : extract_year r = None).
  { rewrite extract_year_spec.
    destruct (pd_isna (row_get r "season_year" VNone)); [reflexivity|exact Hspec]. }
  split; [exact Hy|]. intros Hcc Hi Hg.
  pose proof (classify_text _ _ Hi Hg) as Hfl.
  destruct (process_row_aggregated st r _ Hcc Hfl) as [He Ha].
  split; [exact He|]. rewrite Hy in Ha. eexists. split; [exact Ha|].
  destruct (contribution_no_year (extract_season r)
              (spec_classify (text_of (row_get r "indicator" (VStr "")))
                 (text_of (row_get r "indicator_group" (VStr ""))))
              (extract_region r) (extract_source r)
              (row_get r "indicator" (VStr ""))
              (default new_aggregate
                 (inv_lookup (inventory st) (row_get r "country_code" VNone)
                    (extract_crop r)))) as (H1 & H2 & H3 & H4 & _).
  repeat split; assumption.
Qed.

Lemma unknown_year_row_contributes_witness :
  spec_extract_year row_group_only = None
  ∧ extract_year row_group_only = None
  ∧ (pd_isna (row_get row_group_only "country_code" VNone) = false →
     text_or_missing (row_get row_group_only "indicator" (VStr "")) = true →
     text_or_missing (row_get row_group_only "indicator_group" (VStr "")) = true →
     error_count (process_row initial_state row_group_only)
     = error_count initial_state
     ∧ ∃ a', inv_lookup (inventory (process_row initial_state row_group_only))
               (row_get row_group_only "country_code" VNone)
               (extract_crop row_group_only) = Some a'
         ∧ years a'
           = years (default new_aggregate
                      (inv_lookup (inventory initial_state)
                         (row_get row_group_only "country_code" VNone)
                         (extract_crop row_group_only)))
         ∧ extract_season row_group_only ∈ seasonality a'
         ∧ extract_source row_group_only ∈ data_sources a'
         ∧ (truthy (extract_region row_group_only) = true →
            extract_region row_group_only ∈ regions a')).
Proof.
  assert (H : spec_extract_year row_group_only = None) by (vm_compute; reflexivity).
  split; [exact H|].
  exact (unknown_year_row_contributes initial_state row_group_only H).
Defined.

(** C9 as stated fails: a row with every year-related field missing and a
    numeric [indicator] cell raises in [indicator.lower()]; the row handler
    counts it and the row contributes nothing, its season, source and region
    included. *)
Lemma numeric_indicator_row_fails :
  spec_extract_year row_numeric_indicator = None
  ∧ pd_isna (row_get row_numeric_indicator "country_code" VNone) = false
  ∧ classify (row_get row_numeric_indicator "indicator" (VStr ""))
             (row_get row_numeric_indicator "indicator_group" (VStr ""))
    = Raise AttributeError
  ∧ error_count (process_row initial_state row_numeric_indicator) = 1
  ∧ inventory (process_row initial_state row_numeric_indicator) = ∅.
Proof. repeat split; vm_compute; reflexivity. Qed.

(** ** The region of a row *)

(** C6 at its failing input.  With no admin level filled and the
    [geographic_unit_name] cell present but missing (NaN), the region the code
    extracts is that NaN, not ["National"], and NaN is what enters [regions];
    next to a text region in the same aggregate it makes the final [sorted]
    raise. *)
Theorem region_of_missing_unit_is_nan :
  first_admin row_missing_unit admin_levels VNone = VNone
  ∧ row_get row_missing_unit "geographic_unit_name" (VStr "National") = VNaN
  ∧ extract_region row_missing_unit = VNaN
  ∧ regions <$> inv_lookup (inventory (process_row initial_state row_missing_unit))
                  (VStr "KE") (VStr "Maize") = Some {[VNaN]}
  ∧ create_crop_inventory
      [{| filename := "LA_cropdata.csv";
          read_csv := Ok [row_harvested_2019; row_missing_unit] |}]
    = Raise TypeError.
Proof. repeat split; vm_compute; reflexivity. Qed.

(** * Further properties of the code *)

(** ** Which files are read, and what the counters count *)

(** X1 (file filter, line 41).  A file name is accepted exactly when its
    lower-cased form contains ["cropdata"]: the equality test against
    ["la_cropdata.csv"] accepts nothing the substring test does not. *)
Theorem crop_file_filter_is_substring_test (name : string) :
  is_crop_file name = contains "cropdata" (lower name).
Proof.
  unfold is_crop_file.
  destruct (String.eqb_spec (lower name) "la_cropdata.csv") as [E|_];
    [|reflexivity].
  rewrite E. reflexivity.
Qed.

Lemma process_row_counters st r :
  file_count (process_row st r) = file_count st
  ∧ row_count (process_row st r) = row_count st
  ∧ error_count (process_row st r)
    = error_count st + (if row_fails r then 1 else 0).
Proof.
  unfold process_row, row_fails, row_has_country.
  destruct (pd_isna (row_get r "country_code" VNone)); cbn [negb andb].
  - repeat split; lia.
  - destruct (classify _ _); cbn [is_ok negb]; repeat split;
      cbn [error_count with_inventory add_error_count add_crop add_country]; lia.
Qed.

Lemma process_rows_counters rows : ∀ st,
  file_count (fold_left process_row rows st) = file_count st
  ∧ row_count (fold_left process_row rows st) = row_count st
  ∧ error_count (fold_left process_row rows st)
    = error_count st + Z.of_nat (length (filter (fun r => row_fails r = true) rows)).
Proof.
  induction rows as [|r rows IH]; intros st.
  - cbn. repeat split; lia.
  - cbn [fold_left]. destruct (IH (process_row st r)) as (F & R & E).
    destruct (process_row_counters st r) as (F1 & R1 & E1).
    rewrite F, R, E, F1, R1, E1. rewrite filter_cons.
    destruct (row_fails r); [rewrite decide_True by reflexivity
                            |rewrite decide_False by discriminate];
      cbn [length]; repeat split; lia.
Qed.

Lemma process_files_counters files : ∀ st,
  file_count (fold_left process_file files st)
  = file_count st
    + Z.of_nat (length (filter (fun f => file_is_read f = true) files))
  ∧ row_count (fold_left process_file files st)
    = row_count st + Z.of_nat (length (rows_of files))
  ∧ error_count (fold_left process_file files st)
    = error_count st
      + Z.of_nat (length (filter (fun r => row_fails r = true) (rows_of files))).
Proof.
  induction files as [|f files IH]; intros st.
  - cbn. repeat split; lia.
  - cbn [fold_left rows_of flat_map]. fold (rows_of files).
    destruct (IH (process_file st f)) as (F & R & E). rewrite F, R, E.
    rewrite filter_cons, filter_app, !length_app.
    unfold process_file, file_is_read.
    destruct (is_crop_file (filename f)); cbn [andb].
    + destruct (read_csv f) as [df|e]; cbn [is_ok].
      * rewrite decide_True by reflexivity.
        destruct (process_rows_counters df
                    (add_row_count (Z.of_nat (length df)) st)) as (F1 & R1 & E1).
        cbn [file_count row_count error_count add_file_count].
        rewrite F1, R1, E1.
        cbn [file_count row_count error_count add_row_count length].
        repeat split; lia.
      * rewrite decide_False by discriminate. cbn [length filter].
        rewrite filter_nil. cbn [length]. repeat split; lia.
    + rewrite decide_False by discriminate. rewrite filter_nil. cbn [length].
      repeat split; lia.
Qed.

(** X2 (the counters of the run, lines 28-30, 48, 168, 171).  When the walk
    is over, [file_count] is the number of files whose name is accepted and
    that [pd.read_csv] could read, [row_count] is the number of rows of those
    files (rows without a country code and failed rows included), and
    [error_count] is the number of rows that have a country code and whose
    classification raises; so errors never exceed rows. *)
Theorem run_counters (files : list csv_file) :
  file_count (scan files)
  = Z.of_nat (length (filter (fun f => file_is_read f = true) files))
  ∧ row_count (scan files) = Z.of_nat (length (rows_of files))
  ∧ error_count (scan files)
    = Z.of_nat (length (filter (fun r => row_fails r = true) (rows_of files)))
  ∧ 0 ≤ error_count (scan files) ≤ row_count (scan files).
Proof.
  unfold scan. destruct (process_files_counters files initial_state) as (F & R & E).
  rewrite F, R, E. cbn [file_count row_count error_count initial_state].
  repeat split; try lia.
  pose proof (length_filter (fun r => row_fails r = true) (rows_of files)). lia.
Qed.

(** ** What the aggregate of a key is *)

Lemma agg_union_new c : agg_union new_aggregate c = c.
Proof.
  destruct c. unfold agg_union, new_aggregate;
    cbn [years seasonality area_planted area_harvested
         quantity_produced production regions data_sources indicators orb].
  rewrite !(left_id_L ∅ (∪)). reflexivity.
Qed.

Lemma contributions_for_cons cc crop r rows :
  contributions_for cc crop (r :: rows) =
  match row_effect r with
  | Some (cc', crop', c) =>
      if decide (cc' = cc ∧ crop' = crop) then c :: contributions_for cc crop rows
      else contributions_for cc crop rows
  | None => contributions_for cc crop rows
  end.
Proof.
  unfold contributions_for. cbn [omap list_omap].
  destruct (row_effect r) as [[[cc' crop'] c]|]; [|reflexivity].
  case_decide; reflexivity.
Qed.

Lemma inventory_steps_lookup rows : ∀ inv cc crop,
  inv_lookup (fold_left inventory_step rows inv) cc crop =
  match contributions_for cc crop rows with
  | [] => inv_lookup inv cc crop
  | _ :: _ =>
      Some (fold_left agg_union (contributions_for cc crop rows)
              (default new_aggregate (inv_lookup inv cc crop)))
  end.
Proof.
  induction rows as [|r rows IH]; intros inv cc crop; [reflexivity|].
  cbn [fold_left]. rewrite IH, inventory_step_lookup, contributions_for_cons.
  destruct (row_effect r) as [[[cc' crop'] c]|]; [|reflexivity].
  case_decide; [|reflexivity].
  cbn [fold_left default from_option id].
  destruct (contributions_for cc crop rows); reflexivity.
Qed.

Lemma scan_lookup_contributions (files : list csv_file)
    (cc crop : value) :
  inv_lookup (inventory (scan files)) cc crop =
  match contributions_for cc crop (rows_of files) with
  | [] => None
  | c :: cs => Some (fold_left agg_union cs c)
  end.
Proof.
  unfold scan. rewrite inventory_process_files, inventory_steps_lookup.
  destruct (contributions_for cc crop (rows_of files)) as [|c cs].
  - unfold inv_lookup. cbn [inventory initial_state]. rewrite lookup_empty.
    reflexivity.
  - unfold inv_lookup at 1. cbn [inventory initial_state]. rewrite lookup_empty.
    cbn [mbind option_bind default from_option fold_left].
    rewrite agg_union_new. reflexivity.
Qed.

(** X3 (the aggregate in closed form, lines 150-166).  After the walk, the
    inventory has an entry under (country_code, crop) exactly when some row
    reached the update with that key, and the entry is the field-wise merge
    (set union, boolean OR) of the contributions of those rows. *)
Theorem aggregate_is_merge_of_contributions (files : list csv_file)
    (cc crop : value) :
  inv_lookup (inventory (scan files)) cc crop =
  match contributions_for cc crop (rows_of files) with
  | [] => None
  | c :: cs => Some (fold_left agg_union cs c)
  end.
Proof. apply scan_lookup_contributions. Qed.

Lemma scan_inner_nonempty_step inv r :
  (∀ cc crops, inv !! cc = Some crops → crops ≠ ∅) →
  ∀ cc crops, inventory_step inv r !! cc = Some crops → crops ≠ ∅.
Proof.
  intros Hinv cc crops. unfold inventory_step.
  destruct (row_effect r) as [[[cc' crop'] c]|]; cbn [apply_effect]; [|apply Hinv].
  rewrite upd_lookup_outer. case_decide; [|apply Hinv].
  intros [= <-]. apply insert_non_empty.
Qed.

Lemma scan_inner_nonempty_steps rows : ∀ inv,
  (∀ cc crops, inv !! cc = Some crops → crops ≠ ∅) →
  ∀ cc crops, fold_left inventory_step rows inv !! cc = Some crops → crops ≠ ∅.
Proof.
  induction rows as [|r rows IH]; intros inv Hinv; [exact Hinv|].
  cbn [fold_left]. apply IH, scan_inner_nonempty_step, Hinv.
Qed.

(** A successful traversal has converted every entry. *)
Lemma map_traverse_total `{Countable K} {A B} (f : A → res B) (m : gmap K A) m' :
  map_traverse f m = Ok m' →
  ∀ k a, m !! k = Some a → ∃ b, f a = Ok b ∧ m' !! k = Some b.
Proof.
  unfold map_traverse. revert m'. revert m.
  apply (map_fold_weak_ind (fun r m => ∀ m', r = Ok m' →
    ∀ k a, m !! k = Some a → ∃ b, f a = Ok b ∧ m' !! k = Some b)).
  - intros m' _ k a E. rewrite lookup_empty in E. discriminate.
  - intros i x m r Hi IH m' Hr k a Hk.
    destruct r as [acc|]; cbn in Hr; [|discriminate].
    destruct (f x) as [b|] eqn:Efx; cbn in Hr; [|discriminate].
    injection Hr as <-.
    destruct (decide (i = k)) as [->|Hne].
    + rewrite lookup_insert_eq in Hk. injection Hk as <-.
      exists b. rewrite lookup_insert_eq. split; [exact Efx|reflexivity].
    + rewrite lookup_insert_ne in Hk by exact Hne.
      destruct (IH acc eq_refl k a Hk) as (b' & Hb & Hl).
      exists b'. rewrite lookup_insert_ne by exact Hne. split; assumption.
Qed.

(** X4 (no country without a crop).  The two levels of the nested dict are
    always created together (line 152 or 154), so every country code of the
    inventory maps to at least one crop; and the returned dict keeps that. *)
Theorem no_country_without_crop (files : list csv_file) :
  (∀ cc crops, inventory (scan files) !! cc = Some crops → crops ≠ ∅)
  ∧ (∀ out cc crops, create_crop_inventory files = Ok out →
       out !! cc = Some crops → crops ≠ ∅).
Proof.
  assert (H : ∀ cc crops, inventory (scan files) !! cc = Some crops → crops ≠ ∅).
  { unfold scan. rewrite inventory_process_files.
    apply scan_inner_nonempty_steps. intros cc crops.
    cbn [inventory initial_state]. rewrite lookup_empty. discriminate. }
  split; [exact H|].
  intros out cc crops Hout Hcc.
  destruct (map_traverse_lookup _ _ _ _ _ Hout Hcc) as (crops0 & H0 & Hcrops).
  specialize (H cc crops0 H0). apply map_choose in H as (crop & a & Ha).
  destruct (map_traverse_total _ _ _ Hcrops crop a Ha) as (info & _ & Hinfo).
  intros ->. rewrite lookup_empty in Hinfo. discriminate.
Qed.

Lemma no_country_without_crop_witness :
  let crops := default ∅ (inventory (scan [file_a]) !! VStr "KE") in
  inventory (scan [file_a]) !! VStr "KE" = Some crops ∧ crops ≠ ∅.
Proof.
  intros crops.
  assert (H : inventory (scan [file_a]) !! VStr "KE" = Some crops)
    by vm_cast_no_check (eq_refl (Some crops)).
  split; [exact H|].
  exact (proj1 (no_country_without_crop [file_a]) (VStr "KE") crops H).
Defined.

(** ** Membership in the sets of an aggregate *)

Section merged_fields.
Context {X : Type} `{Countable X} (field : aggregate → gset X).
Hypothesis field_union : ∀ a b, field (agg_union a b) = field a ∪ field b.

Lemma elem_of_merged_field cs : ∀ a x,
  x ∈ field (fold_left agg_union cs a) ↔ x ∈ field a ∨ ∃ c, c ∈ cs ∧ x ∈ field c.
Proof.
  induction cs as [|c cs IH]; intros a x; cbn [fold_left].
  - split; [auto|]. intros [Hx|(c & Hc & _)]; [exact Hx|].
    apply elem_of_nil in Hc. contradiction.
  - rewrite IH, field_union, elem_of_union. split.
    + intros [[Hx|Hx]|(c' & Hc' & Hx)]; [left; exact Hx| |].
      * right. exists c. split; [apply list_elem_of_here|exact Hx].
      * right. exists c'. split; [apply list_elem_of_further, Hc'|exact Hx].
    + intros [Hx|(c' & Hc' & Hx)]; [left; left; exact Hx|].
      apply elem_of_cons in Hc' as [->|Hc'].
      * left; right; exact Hx.
      * right. exists c'. split; assumption.
Qed.
End merged_fields.

Lemma merged_flag (flag : aggregate → bool) :
  (∀ a b, flag (agg_union a b) = flag a || flag b) →
  ∀ cs a, flag (fold_left agg_union cs a) = true ↔
          flag a = true ∨ ∃ c, c ∈ cs ∧ flag c = true.
Proof.
  intros Hflag cs. induction cs as [|c cs IH]; intros a; cbn [fold_left].
  - split; [auto|]. intros [Hx|(c & Hc & _)]; [exact Hx|].
    apply elem_of_nil in Hc. contradiction.
  - rewrite IH, Hflag, orb_true_iff. split.
    + intros [[Hx|Hx]|(c' & Hc' & Hx)]; [left; exact Hx| |].
      * right. exists c. split; [apply list_elem_of_here|exact Hx].
      * right. exists c'. split; [apply list_elem_of_further, Hc'|exact Hx].
    + intros [Hx|(c' & Hc' & Hx)]; [left; left; exact Hx|].
      apply elem_of_cons in Hc' as [->|Hc'].
      * left; right; exact Hx.
      * right. exists c'. split; assumption.
Qed.

Lemma elem_of_contributions_for cc crop rows c :
  c ∈ contributions_for cc crop rows ↔
  ∃ r, r ∈ rows ∧ row_effect r = Some (cc, crop, c).
Proof.
  unfold contributions_for. rewrite list_elem_of_omap. split.
  - intros (r & Hr & E). exists r. split; [exact Hr|].
    destruct (row_effect r) as [[[cc' crop'] c']|]; [|discriminate].
    case_decide as D; [|discriminate]. destruct D as [-> ->].
    injection E as ->. reflexivity.
  - intros (r & Hr & E). exists r. split; [exact Hr|]. rewrite E.
    rewrite decide_True by (split; reflexivity). reflexivity.
Qed.

(** What the lookup of a key says about the rows: the entry is the merge of
    a non-empty list of contributions, each the effect of a row of the walk. *)
Lemma scan_lookup_Some files cc crop a :
  inv_lookup (inventory (scan files)) cc crop = Some a →
  ∃ c cs, contributions_for cc crop (rows_of files) = c :: cs
          ∧ a = fold_left agg_union cs c.
Proof.
  rewrite scan_lookup_contributions.
  destruct (contributions_for cc crop (rows_of files)) as [|c cs]; [discriminate|].
  intros [= <-]. eauto.
Qed.

Lemma row_effect_inv r cc crop c :
  row_effect r = Some (cc, crop, c) →
  row_has_country r = true
  ∧ cc = row_get r "country_code" VNone
  ∧ crop = extract_crop r
  ∧ ∃ fl, classify (row_get r "indicator" (VStr ""))
                   (row_get r "indicator_group" (VStr "")) = Ok fl
          ∧ c = contribution (extract_year r) (extract_season r) fl
                  (extract_region r) (extract_source r)
                  (row_get r "indicator" (VStr "")).
Proof.
  unfold row_effect, row_has_country.
  destruct (pd_isna (row_get r "country_code" VNone)); [discriminate|].
  destruct (classify _ _) as [fl|]; [|discriminate].
  intros [= <- <- <-]. repeat split. exists fl. split; reflexivity.
Qed.

Lemma scan_field_membership {X} `{Countable X} (field : aggregate → gset X)
    files cc crop a :
  (∀ a b, field (agg_union a b) = field a ∪ field b) →
  inv_lookup (inventory (scan files)) cc crop = Some a →
  ∀ x, x ∈ field a ↔
       ∃ r c, r ∈ rows_of files ∧ row_effect r = Some (cc, crop, c) ∧ x ∈ field c.
Proof.
  intros Hunion Ha x.
  destruct (scan_lookup_Some _ _ _ _ Ha) as (c0 & cs & Hcs & ->).
  rewrite (elem_of_merged_field field Hunion). split.
  - intros [Hx|(c & Hc & Hx)].
    + assert (Hin : c0 ∈ contributions_for cc crop (rows_of files))
        by (rewrite Hcs; apply list_elem_of_here).
      apply elem_of_contributions_for in Hin as (r & Hr & E). eauto.
    + assert (Hin : c ∈ contributions_for cc crop (rows_of files))
        by (rewrite Hcs; apply list_elem_of_further, Hc).
      apply elem_of_contributions_for in Hin as (r & Hr & E). eauto.
  - intros (r & c & Hr & E & Hx).
    assert (Hin : c ∈ contributions_for cc crop (rows_of files))
      by (apply elem_of_contributions_for; eauto).
    rewrite Hcs in Hin. apply elem_of_cons in Hin as [->|Hin]; eauto.
Qed.

Lemma contribution_years y year season fl region source indicator :
  y ∈ years (contribution year season fl region source indicator)
  ↔ year = Some y ∧ y ≠ 0.
Proof.
  unfold contribution; cbn [years]. destruct year as [y'|].
  - cbn [truthy_year]. destruct (Z.eqb_spec y' 0) as [->|Hne]; cbn [negb].
    + rewrite elem_of_empty. split; [contradiction|].
      intros [[= <-] Hne]. apply Hne. reflexivity.
    + rewrite elem_of_singleton. split.
      * intros ->. split; [reflexivity|exact Hne].
      * intros [[= <-] _]. reflexivity.
  - rewrite elem_of_empty. split; [contradiction|]. intros [[=] _].
Qed.

Lemma contribution_regions v year season fl region source indicator :
  v ∈ regions (contribution year season fl region source indicator)
  ↔ region = v ∧ truthy v = true.
Proof.
  unfold contribution; cbn [regions]. destruct (truthy region) eqn:E.
  - rewrite elem_of_singleton. split.
    + intros ->. split; [reflexivity|exact E].
    + intros [<- _]. reflexivity.
  - rewrite elem_of_empty. split; [contradiction|].
    intros [<- Ht]. rewrite E in Ht. discriminate.
Qed.

Lemma contribution_indicators v year season fl region source indicator :
  v ∈ indicators (contribution year season fl region source indicator)
  ↔ indicator = v ∧ pd_isna v = false.
Proof.
  unfold contribution; cbn [indicators]. destruct (pd_isna indicator) eqn:E;
    cbn [negb].
  - rewrite elem_of_empty. split; [contradiction|].
    intros [<- Ht]. rewrite E in Ht. discriminate.
  - rewrite elem_of_singleton. split.
    + intros ->. split; [reflexivity|exact E].
    + intros [<- _]. reflexivity.
Qed.

Lemma scan_sets_membership (files : list csv_file) (cc crop : value)
    (a : aggregate) :
  inv_lookup (inventory (scan files)) cc crop = Some a →
  (∀ y, y ∈ years a ↔
        ∃ r, r ∈ rows_of files ∧ aggregated_under cc crop r
             ∧ extract_year r = Some y ∧ y ≠ 0)
  ∧ (∀ v, v ∈ seasonality a ↔
          ∃ r, r ∈ rows_of files ∧ aggregated_under cc crop r
               ∧ extract_season r = v)
  ∧ (∀ v, v ∈ regions a ↔
          ∃ r, r ∈ rows_of files ∧ aggregated_under cc crop r
               ∧ extract_region r = v ∧ truthy v = true)
  ∧ (∀ v, v ∈ data_sources a ↔
          ∃ r, r ∈ rows_of files ∧ aggregated_under cc crop r
               ∧ extract_source r = v)
  ∧ (∀ v, v ∈ indicators a ↔
          ∃ r, r ∈ rows_of files ∧ aggregated_under cc crop r
               ∧ row_get r "indicator" (VStr "") = v ∧ pd_isna v = false).
Proof.
  intros Ha. unfold aggregated_under. repeat split.
  - rewrite (scan_field_membership years files cc crop a (fun _ _ => eq_refl) Ha).
    intros (r & c & Hr & E & Hy). exists r.
    destruct (row_effect_inv _ _ _ _ E) as (_ & _ & _ & fl & _ & ->).
    apply contribution_years in Hy. split; [exact Hr|]. split; [eauto|exact Hy].
  - intros (r & Hr & (c & E) & Hy).
    rewrite (scan_field_membership years files cc crop a (fun _ _ => eq_refl) Ha).
    exists r, c. split; [exact Hr|]. split; [exact E|].
    destruct (row_effect_inv _ _ _ _ E) as (_ & _ & _ & fl & _ & ->).
    apply contribution_years, Hy.
  - rewrite (scan_field_membership seasonality files cc crop a (fun _ _ => eq_refl) Ha).
    intros (r & c & Hr & E & Hv). exists r.
    destruct (row_effect_inv _ _ _ _ E) as (_ & _ & _ & fl & _ & ->).
    cbn [contribution seasonality] in Hv. apply elem_of_singleton in Hv.
    split; [exact Hr|]. split; [eauto|symmetry; exact Hv].
  - intros (r & Hr & (c & E) & Hv).
    rewrite (scan_field_membership seasonality files cc crop a (fun _ _ => eq_refl) Ha).
    exists r, c. split; [exact Hr|]. split; [exact E|].
    destruct (row_effect_inv _ _ _ _ E) as (_ & _ & _ & fl & _ & ->).
    cbn [contribution seasonality]. apply elem_of_singleton. symmetry; exact Hv.
  - rewrite (scan_field_membership regions files cc crop a (fun _ _ => eq_refl) Ha).
    intros (r & c & Hr & E & Hv). exists r.
    destruct (row_effect_inv _ _ _ _ E) as (_ & _ & _ & fl & _ & ->).
    apply contribution_regions in Hv. split; [exact Hr|]. split; [eauto|exact Hv].
  - intros (r & Hr & (c & E) & Hv).
    rewrite (scan_field_membership regions files cc crop a (fun _ _ => eq_refl) Ha).
    exists r, c. split; [exact Hr|]. split; [exact E|].
    destruct (row_effect_inv _ _ _ _ E) as (_ & _ & _ & fl & _ & ->).
    apply contribution_regions, Hv.
  - rewrite (scan_field_membership data_sources files cc crop a (fun _ _ => eq_refl) Ha).
    intros (r & c & Hr & E & Hv). exists r.
    destruct (row_effect_inv _ _ _ _ E) as (_ & _ & _ & fl & _ & ->).
    cbn [contribution data_sources] in Hv. apply elem_of_singleton in Hv.
    split; [exact Hr|]. split; [eauto|symmetry; exact Hv].
  - intros (r & Hr & (c & E) & Hv).
    rewrite (scan_field_membership data_sources files cc crop a (fun _ _ => eq_refl) Ha).
    exists r, c. split; [exact Hr|]. split; [exact E|].
    destruct (row_effect_inv _ _ _ _ E) as (_ & _ & _ & fl & _ & ->).
    cbn [contribution data_sources]. apply elem_of_singleton. symmetry; exact Hv.
  - rewrite (scan_field_membership indicators files cc crop a (fun _ _ => eq_refl) Ha).
    intros (r & c & Hr & E & Hv). exists r.
    destruct (row_effect_inv _ _ _ _ E) as (_ & _ & _ & fl & _ & ->).
    apply contribution_indicators in Hv. split; [exact Hr|]. split; [eauto|exact Hv].
  - intros (r & Hr & (c & E) & Hv).
    rewrite (scan_field_membership indicators files cc crop a (fun _ _ => eq_refl) Ha).
    exists r, c. split; [exact Hr|]. split; [exact E|].
    destruct (row_effect_inv _ _ _ _ E) as (_ & _ & _ & fl & _ & ->).
    apply contribution_indicators, Hv.
Qed.

(** X5 (what is in the sets of an aggregate).  For an entry of the
    inventory, a year is in [years] exactly when some row aggregated under
    the key extracts that year and it is not 0; a value is in [seasonality]
    (in [data_sources]) exactly when it is the season (the source) of such a
    row; in [regions] exactly when it is the region of such a row and is
    truthy; in [indicators] exactly when it is the non-missing indicator cell
    of such a row. *)
Theorem aggregate_sets_membership (files : list csv_file) (cc crop : value)
    (a : aggregate) :
  inv_lookup (inventory (scan files)) cc crop = Some a →
  (∀ y, y ∈ years a ↔
        ∃ r, r ∈ rows_of files ∧ aggregated_under cc crop r
             ∧ extract_year r = Some y ∧ y ≠ 0)
  ∧ (∀ v, v ∈ seasonality a ↔
          ∃ r, r ∈ rows_of files ∧ aggregated_under cc crop r
               ∧ extract_season r = v)
  ∧ (∀ v, v ∈ regions a ↔
          ∃ r, r ∈ rows_of files ∧ aggregated_under cc crop r
               ∧ extract_region r = v ∧ truthy v = true)
  ∧ (∀ v, v ∈ data_sources a ↔
          ∃ r, r ∈ rows_of files ∧ aggregated_under cc crop r
               ∧ extract_source r = v)
  ∧ (∀ v, v ∈ indicators a ↔
          ∃ r, r ∈ rows_of files ∧ aggregated_under cc crop r
               ∧ row_get r "indicator" (VStr "") = v ∧ pd_isna v = false).
Proof. apply scan_sets_membership. Qed.

Lemma aggregate_sets_membership_witness :
  let a := {| years := {[2019]}; seasonality := {[VStr "Annual"]};
              area_planted := false; area_harvested := true;
              quantity_produced := false; production := false;
              regions := {[VStr "National"]}; data_sources := {[VStr "Unknown"]};
              indicators := {[VStr "Area Harvested"]} |} in
  inv_lookup (inventory (scan [file_c])) (VStr "KE") (VStr "Maize") = Some a
  ∧ (∀ y, y ∈ years a ↔
          ∃ r, r ∈ rows_of [file_c] ∧ aggregated_under (VStr "KE") (VStr "Maize") r
               ∧ extract_year r = Some y ∧ y ≠ 0).
Proof.
  intros a.
  assert (Ha : inv_lookup (inventory (scan [file_c])) (VStr "KE") (VStr "Maize")
               = Some a) by vm_cast_no_check (eq_refl (Some a)).
  split; [exact Ha|].
  exact (proj1 (aggregate_sets_membership [file_c] (VStr "KE") (VStr "Maize") a Ha)).
Defined.

Lemma scan_flag_true (flag : aggregate → bool) files cc crop a :
  (∀ a b, flag (agg_union a b) = flag a || flag b) →
  inv_lookup (inventory (scan files)) cc crop = Some a →
  flag a = true ↔
  ∃ r c, r ∈ rows_of files ∧ row_effect r = Some (cc, crop, c) ∧ flag c = true.
Proof.
  intros Hflag Ha.
  destruct (scan_lookup_Some _ _ _ _ Ha) as (c0 & cs & Hcs & ->).
  rewrite (merged_flag flag Hflag). split.
  - intros [Hx|(c & Hc & Hx)].
    + assert (Hin : c0 ∈ contributions_for cc crop (rows_of files))
        by (rewrite Hcs; apply list_elem_of_here).
      apply elem_of_contributions_for in Hin as (r & Hr & E). eauto.
    + assert (Hin : c ∈ contributions_for cc crop (rows_of files))
        by (rewrite Hcs; apply list_elem_of_further, Hc).
      apply elem_of_contributions_for in Hin as (r & Hr & E). eauto.
  - intros (r & c & Hr & E & Hx).
    assert (Hin : c ∈ contributions_for cc crop (rows_of files))
      by (apply elem_of_contributions_for; eauto).
    rewrite Hcs in Hin. apply elem_of_cons in Hin as [->|Hin]; eauto.
Qed.

Lemma flag_of_row (flag : aggregate → bool) (fflag : flags → bool) r cc crop :
  (∀ year season fl region source indicator,
     flag (contribution year season fl region source indicator) = fflag fl) →
  (∃ c, row_effect r = Some (cc, crop, c) ∧ flag c = true)
  ↔ aggregated_under cc crop r
    ∧ ∃ fl, classify (row_get r "indicator" (VStr ""))
                     (row_get r "indicator_group" (VStr "")) = Ok fl
            ∧ fflag fl = true.
Proof.
  intros Hc. unfold aggregated_under. split.
  - intros (c & E & Hf).
    destruct (row_effect_inv _ _ _ _ E) as (_ & _ & _ & fl & Hfl & ->).
    rewrite Hc in Hf. split; [eauto|]. exists fl. split; assumption.
  - intros ((c & E) & fl & Hfl & Hf). exists c. split; [exact E|].
    destruct (row_effect_inv _ _ _ _ E) as (_ & _ & _ & fl' & Hfl' & ->).
    rewrite Hfl in Hfl'. injection Hfl' as <-. rewrite Hc. exact Hf.
Qed.

(** X6 (what makes a boolean true).  In an entry of the inventory, each of
    the four booleans is true exactly when the classification of some row
    aggregated under the key sets it: a boolean is never set by anything
    else, and never missed. *)
Theorem aggregate_flags_from_rows (files : list csv_file) (cc crop : value)
    (a : aggregate) :
  inv_lookup (inventory (scan files)) cc crop = Some a →
  let sets (pick : flags → bool) :=
    ∃ r, r ∈ rows_of files ∧ aggregated_under cc crop r
         ∧ ∃ fl, classify (row_get r "indicator" (VStr ""))
                          (row_get r "indicator_group" (VStr "")) = Ok fl
                 ∧ pick fl = true in
  (area_planted a = true ↔ sets f_area_planted)
  ∧ (area_harvested a = true ↔ sets f_area_harvested)
  ∧ (quantity_produced a = true ↔ sets f_quantity_produced)
  ∧ (production a = true ↔ sets f_production).
Proof.
  intros Ha sets. unfold sets.
  assert (G : ∀ (flag : aggregate → bool) (fflag : flags → bool),
    (∀ a b, flag (agg_union a b) = flag a || flag b) →
    (∀ year season fl region source indicator,
       flag (contribution year season fl region source indicator) = fflag fl) →
    flag a = true ↔
    ∃ r, r ∈ rows_of files ∧ aggregated_under cc crop r
         ∧ ∃ fl, classify (row_get r "indicator" (VStr ""))
                          (row_get r "indicator_group" (VStr "")) = Ok fl
                 ∧ fflag fl = true).
  { intros flag fflag H1 H2. rewrite (scan_flag_true flag files cc crop a H1 Ha).
    split.
    - intros (r & c & Hr & E & Hf). exists r. split; [exact Hr|].
      apply (flag_of_row flag fflag r cc crop H2). eauto.
    - intros (r & Hr & Hag & Hfl).
      destruct (proj2 (flag_of_row flag fflag r cc crop H2) (conj Hag Hfl))
        as (c & E & Hf). eauto. }
  repeat split; apply G; intros; reflexivity.
Qed.

Lemma aggregate_flags_from_rows_witness :
  let a := {| years := {[2019]}; seasonality := {[VStr "Annual"]};
              area_planted := false; area_harvested := true;
              quantity_produced := false; production := false;
              regions := {[VStr "National"]}; data_sources := {[VStr "Unknown"]};
              indicators := {[VStr "Area Harvested"]} |} in
  inv_lookup (inventory (scan [file_c])) (VStr "KE") (VStr "Maize") = Some a
  ∧ (area_harvested a = true ↔
     ∃ r, r ∈ rows_of [file_c] ∧ aggregated_under (VStr "KE") (VStr "Maize") r
          ∧ ∃ fl, classify (row_get r "indicator" (VStr ""))
                           (row_get r "indicator_group" (VStr "")) = Ok fl
                  ∧ f_area_harvested fl = true).
Proof.
  intros a.
  assert (Ha : inv_lookup (inventory (scan [file_c])) (VStr "KE") (VStr "Maize")
               = Some a) by vm_cast_no_check (eq_refl (Some a)).
  split; [exact Ha|].
  exact (proj1 (proj2 (aggregate_flags_from_rows [file_c] (VStr "KE") (VStr "Maize")
                         a Ha))).
Defined.

(** ** What never enters an aggregate *)

Lemma extract_crop_not_missing r : pd_isna (extract_crop r) = false.
Proof.
  unfold extract_crop.
  destruct (pd_isna (row_get r "product" (VStr "")) || negb (truthy (row_get r "product" (VStr "")))) eqn:E.
  - destruct (pd_isna (row_get r "cpcv2_description" (VStr "Unknown Crop"))) eqn:E2;
      [reflexivity|exact E2].
  - apply orb_false_elim in E as [E _]. rewrite E. exact E.
Qed.

Lemma extract_season_not_missing r : pd_isna (extract_season r) = false.
Proof.
  unfold extract_season.
  destruct (pd_isna (row_get r "season_name" (VStr "")) || negb (truthy (row_get r "season_name" (VStr "")))) eqn:E.
  - destruct (pd_isna (row_get r "season_type" (VStr "Annual"))) eqn:E2;
      [reflexivity|exact E2].
  - apply orb_false_elim in E as [E _]. rewrite E. exact E.
Qed.

Lemma extract_source_not_missing r : pd_isna (extract_source r) = false.
Proof.
  unfold extract_source.
  destruct (pd_isna (row_get r "source_organization" (VStr "")) || negb (truthy (row_get r "source_organization" (VStr "")))) eqn:E.
  - destruct (pd_isna (row_get r "source_document" (VStr "Unknown"))) eqn:E2;
      [reflexivity|exact E2].
  - apply orb_false_elim in E as [E _]. rewrite E. exact E.
Qed.

Lemma classify_Ok_indicator_text indicator group fl :
  classify indicator group = Ok fl → pd_isna indicator = false →
  is_text indicator = true.
Proof.
  unfold classify, classify_indicator. intros Hfl Hna. rewrite Hna in Hfl.
  cbn [negb] in Hfl. destruct indicator; try discriminate; reflexivity.
Qed.

(** X7 (what an aggregate never holds).  In an entry of the inventory the
    country code and the crop are not missing values; no season and no source
    is a missing value; every indicator label is text; every region is truthy
    (not [None], not [''], not 0); and 0 is never among the years. *)
Theorem aggregate_never_holds (files : list csv_file) (cc crop : value)
    (a : aggregate) :
  inv_lookup (inventory (scan files)) cc crop = Some a →
  pd_isna cc = false ∧ pd_isna crop = false
  ∧ (∀ v, v ∈ seasonality a → pd_isna v = false)
  ∧ (∀ v, v ∈ data_sources a → pd_isna v = false)
  ∧ (∀ v, v ∈ indicators a → is_text v = true)
  ∧ (∀ v, v ∈ regions a → truthy v = true)
  ∧ 0 ∉ years a.
Proof.
  intros Ha.
  destruct (scan_sets_membership files cc crop a Ha) as (Hy & Hs & Hr & Hd & Hi).
  destruct (scan_lookup_Some _ _ _ _ Ha) as (c0 & cs & Hcs & _).
  assert (Hin : c0 ∈ contributions_for cc crop (rows_of files))
    by (rewrite Hcs; apply list_elem_of_here).
  apply elem_of_contributions_for in Hin as (r0 & _ & E0).
  destruct (row_effect_inv _ _ _ _ E0) as (Hc0 & -> & -> & _).
  split. { unfold row_has_country in Hc0. apply negb_true_iff in Hc0. exact Hc0. }
  split; [apply extract_crop_not_missing|].
  split. { intros v Hv. apply Hs in Hv as (r & _ & _ & <-).
           apply extract_season_not_missing. }
  split. { intros v Hv. apply Hd in Hv as (r & _ & _ & <-).
           apply extract_source_not_missing. }
  split. { intros v Hv. apply Hi in Hv as (r & _ & (c & E) & <- & Hna).
           destruct (row_effect_inv _ _ _ _ E) as (_ & _ & _ & fl & Hfl & _).
           exact (classify_Ok_indicator_text _ _ _ Hfl Hna). }
  split. { intros v Hv. apply Hr in Hv as (r & _ & _ & _ & Ht). exact Ht. }
  intros H0. apply Hy in H0 as (r & _ & _ & _ & Hne). apply Hne. reflexivity.
Qed.

Lemma aggregate_never_holds_witness :
  let a := {| years := {[2019]}; seasonality := {[VStr "Annual"]};
              area_planted := false; area_harvested := true;
              quantity_produced := false; production := false;
              regions := {[VStr "National"]}; data_sources := {[VStr "Unknown"]};
              indicators := {[VStr "Area Harvested"]} |} in
  inv_lookup (inventory (scan [file_c])) (VStr "KE") (VStr "Maize") = Some a
  ∧ pd_isna (VStr "KE") = false ∧ pd_isna (VStr "Maize") = false
  ∧ (∀ v, v ∈ seasonality a → pd_isna v = false)
  ∧ (∀ v, v ∈ data_sources a → pd_isna v = false)
  ∧ (∀ v, v ∈ indicators a → is_text v = true)
  ∧ (∀ v, v ∈ regions a → truthy v = true)
  ∧ 0 ∉ years a.
Proof.
  intros a.
  assert (Ha : inv_lookup (inventory (scan [file_c])) (VStr "KE") (VStr "Maize")
               = Some a) by vm_cast_no_check (eq_refl (Some a)).
  split; [exact Ha|].
  exact (aggregate_never_holds [file_c] (VStr "KE") (VStr "Maize") a Ha).
Defined.

(** X8 (where an extracted year comes from).  A year the extractor returns
    is either [int(season_year)], or, when that raises, the year of the date
    that one of the listed (field, format) attempts parses, and then it lies
    between 1 and 9999. *)
Theorem extracted_year_provenance (r : row) (y : Z) :
  extract_year r = Some y →
  pd_isna (row_get r "season_year" VNone) = false
  ∧ (py_int (row_get r "season_year" VNone) = Ok y
     ∨ (is_ok (py_int (row_get r "season_year" VNone)) = false
        ∧ 1 ≤ y ≤ 9999
        ∧ ∃ attempt dt, attempt ∈ date_attempts
            ∧ strptime (row_get r (fst attempt) VNone) (snd attempt) = Ok dt
            ∧ dt_year dt = y)).
Proof.
  rewrite extract_year_spec.
  destruct (pd_isna (row_get r "season_year" VNone)); [discriminate|].
  intros H. split; [reflexivity|]. unfold spec_extract_year in H.
  destruct (py_int (row_get r "season_year" VNone)) as [y'|e].
  - left. injection H as ->. reflexivity.
  - right. split; [reflexivity|]. unfold first_date_parse in H.
    assert (Hin : y ∈ omap (parse_year r) date_attempts).
    { destruct (omap (parse_year r) date_attempts); [discriminate|].
      injection H as ->. apply list_elem_of_here. }
    apply list_elem_of_omap in Hin as (attempt & Hat & Hp).
    unfold parse_year in Hp.
    destruct (strptime (row_get r (fst attempt) VNone) (snd attempt)) as [dt|] eqn:Es;
      [|discriminate].
    injection Hp as <-. split; [exact (strptime_year _ _ _ Es)|].
    exists attempt, dt. repeat split; assumption.
Qed.

Lemma extracted_year_provenance_witness :
  extract_year row_bad_season_year = Some 2018
  ∧ pd_isna (row_get row_bad_season_year "season_year" VNone) = false
  ∧ (py_int (row_get row_bad_season_year "season_year" VNone) = Ok 2018
     ∨ (is_ok (py_int (row_get row_bad_season_year "season_year" VNone)) = false
        ∧ 1 ≤ 2018 ≤ 9999
        ∧ ∃ attempt dt, attempt ∈ date_attempts
            ∧ strptime (row_get row_bad_season_year (fst attempt) VNone)
                       (snd attempt) = Ok dt
            ∧ dt_year dt = 2018)).
Proof.
  assert (H : extract_year row_bad_season_year = Some 2018)
    by vm_cast_no_check (eq_refl (Some 2018)).
  split; [exact H|].
  exact (extracted_year_provenance row_bad_season_year 2018 H).
Defined.

(** ** The country and crop sets of the report *)

Lemma process_row_sets st r :
  country_set (process_row st r)
  = country_set st
    ∪ (if row_has_country r then {[row_get r "country_code" VNone]} else ∅)
  ∧ crop_set (process_row st r)
    = crop_set st ∪ (if row_has_country r then {[extract_crop r]} else ∅).
Proof.
  unfold process_row, row_has_country.
  destruct (pd_isna (row_get r "country_code" VNone)); cbn [negb].
  - rewrite !(right_id_L ∅ (∪)). split; reflexivity.
  - destruct (classify _ _); split; reflexivity.
Qed.

Lemma process_rows_sets rows : ∀ st v,
  (v ∈ country_set (fold_left process_row rows st) ↔
   v ∈ country_set st
   ∨ ∃ r, r ∈ rows ∧ row_has_country r = true ∧ row_get r "country_code" VNone = v)
  ∧ (v ∈ crop_set (fold_left process_row rows st) ↔
     v ∈ crop_set st
     ∨ ∃ r, r ∈ rows ∧ row_has_country r = true ∧ extract_crop r = v).
Proof.
  induction rows as [|r rows IH]; intros st v; cbn [fold_left].
  - split; (split; [auto|]); intros [H|(r & Hr & _)]; try exact H;
      apply elem_of_nil in Hr; contradiction.
  - destruct (IH (process_row st r) v) as [IH1 IH2].
    destruct (process_row_sets st r) as [E1 E2].
    rewrite IH1, IH2, E1, E2, !elem_of_union. clear IH IH1 IH2 E1 E2.
    split; split.
    + intros [[H|H]|(r' & Hr' & Hc & Hv)]; [left; exact H| |].
      * right. exists r. destruct (row_has_country r) eqn:Ec.
        -- apply elem_of_singleton in H. split; [apply list_elem_of_here|].
           split; [reflexivity|symmetry; exact H].
        -- apply elem_of_empty in H. contradiction.
      * right. exists r'. split; [apply list_elem_of_further, Hr'|]. split; assumption.
    + intros [H|(r' & Hr' & Hc & Hv)]; [left; left; exact H|].
      apply elem_of_cons in Hr' as [->|Hr'].
      * left; right. rewrite Hc. apply elem_of_singleton. symmetry; exact Hv.
      * right. exists r'. repeat split; assumption.
    + intros [[H|H]|(r' & Hr' & Hc & Hv)]; [left; exact H| |].
      * right. exists r. destruct (row_has_country r) eqn:Ec.
        -- apply elem_of_singleton in H. split; [apply list_elem_of_here|].
           split; [reflexivity|symmetry; exact H].
        -- apply elem_of_empty in H. contradiction.
      * right. exists r'. split; [apply list_elem_of_further, Hr'|]. split; assumption.
    + intros [H|(r' & Hr' & Hc & Hv)]; [left; left; exact H|].
      apply elem_of_cons in Hr' as [->|Hr'].
      * left; right. rewrite Hc. apply elem_of_singleton. symmetry; exact Hv.
      * right. exists r'. repeat split; assumption.
Qed.

Lemma process_files_sets files : ∀ st v,
  (v ∈ country_set (fold_left process_file files st) ↔
   v ∈ country_set st
   ∨ ∃ r, r ∈ rows_of files ∧ row_has_country r = true
          ∧ row_get r "country_code" VNone = v)
  ∧ (v ∈ crop_set (fold_left process_file files st) ↔
     v ∈ crop_set st
     ∨ ∃ r, r ∈ rows_of files ∧ row_has_country r = true ∧ extract_crop r = v).
Proof.
  induction files as [|f files IH]; intros st v; cbn [fold_left rows_of flat_map].
  - split; (split; [auto|]); intros [H|(r & Hr & _)]; try exact H;
      apply elem_of_nil in Hr; contradiction.
  - fold (rows_of files). destruct (IH (process_file st f) v) as [IH1 IH2].
    rewrite IH1, IH2. clear IH IH1 IH2.
    assert (Hf : ∀ w,
      (w ∈ country_set (process_file st f) ↔
       w ∈ country_set st
       ∨ ∃ r, r ∈ (if is_crop_file (filename f)
                   then match read_csv f with Ok df => df | Raise _ => [] end
                   else [])
              ∧ row_has_country r = true ∧ row_get r "country_code" VNone = w)
      ∧ (w ∈ crop_set (process_file st f) ↔
         w ∈ crop_set st
         ∨ ∃ r, r ∈ (if is_crop_file (filename f)
                     then match read_csv f with Ok df => df | Raise _ => [] end
                     else [])
                ∧ row_has_country r = true ∧ extract_crop r = w)).
    { intros w. unfold process_file.
      destruct (is_crop_file (filename f));
        [destruct (read_csv f) as [df|e]|].
      - cbn [country_set crop_set add_file_count].
        apply (process_rows_sets df (add_row_count (Z.of_nat (length df)) st) w).
      - split; (split; [auto|]); intros [H|(r & Hr & _)]; try exact H;
          apply elem_of_nil in Hr; contradiction.
      - split; (split; [auto|]); intros [H|(r & Hr & _)]; try exact H;
          apply elem_of_nil in Hr; contradiction. }
    destruct (Hf v) as [Hf1 Hf2]. rewrite Hf1, Hf2. clear Hf Hf1 Hf2.
    split; split.
    + intros [[H|(r & Hr & Hc)]|(r & Hr & Hc)]; [left; exact H| |];
        right; exists r; (split; [apply elem_of_app; auto|exact Hc]).
    + intros [H|(r & Hr & Hc)]; [left; left; exact H|].
      apply elem_of_app in Hr as [Hr|Hr]; [left; right|right]; eauto.
    + intros [[H|(r & Hr & Hc)]|(r & Hr & Hc)]; [left; exact H| |];
        right; exists r; (split; [apply elem_of_app; auto|exact Hc]).
    + intros [H|(r & Hr & Hc)]; [left; left; exact H|].
      apply elem_of_app in Hr as [Hr|Hr]; [left; right|right]; eauto.
Qed.

Lemma scan_sets files v :
  (v ∈ country_set (scan files) ↔
   ∃ r, r ∈ rows_of files ∧ row_has_country r = true
        ∧ row_get r "country_code" VNone = v)
  ∧ (v ∈ crop_set (scan files) ↔
     ∃ r, r ∈ rows_of files ∧ row_has_country r = true ∧ extract_crop r = v).
Proof.
  unfold scan. destruct (process_files_sets files initial_state v) as [H1 H2].
  rewrite H1, H2. cbn [country_set crop_set initial_state].
  split; (split; [intros [H|H]; [apply elem_of_empty in H; contradiction|exact H]
                 |auto]).
Qed.

(** X9 (the reported country and crop sets, lines 31-32, 58, 67).  A value is
    in [country_set] (in [crop_set]) exactly when it is the country code (the
    crop) of some row that has a country code, whether or not that row then
    fails; so every key of the inventory is in these sets, and the counts
    printed from them are upper bounds of the inventory's. *)
Theorem reported_sets_cover_inventory (files : list csv_file) :
  (∀ v, v ∈ country_set (scan files) ↔
        ∃ r, r ∈ rows_of files ∧ row_has_country r = true
             ∧ row_get r "country_code" VNone = v)
  ∧ (∀ v, v ∈ crop_set (scan files) ↔
          ∃ r, r ∈ rows_of files ∧ row_has_country r = true ∧ extract_crop r = v)
  ∧ (∀ cc crop a, inv_lookup (inventory (scan files)) cc crop = Some a →
       cc ∈ country_set (scan files) ∧ crop ∈ crop_set (scan files)).
Proof.
  split; [intros v; apply scan_sets|]. split; [intros v; apply scan_sets|].
  intros cc crop a Ha.
  destruct (scan_lookup_Some _ _ _ _ Ha) as (c0 & cs & Hcs & _).
  assert (Hin : c0 ∈ contributions_for cc crop (rows_of files))
    by (rewrite Hcs; apply list_elem_of_here).
  apply elem_of_contributions_for in Hin as (r0 & Hr0 & E0).
  destruct (row_effect_inv _ _ _ _ E0) as (Hc0 & -> & -> & _).
  split; apply scan_sets; exists r0; repeat split; assumption.
Qed.

(** ** Repeated rows *)

Lemma agg_union_idem a c : agg_union (agg_union a c) c = agg_union a c.
Proof.
  unfold agg_union;
    cbn [years seasonality area_planted area_harvested
         quantity_produced production regions data_sources indicators].
  f_equal;
    first [ rewrite <- (assoc_L (∪)), (idemp_L (∪)); reflexivity
          | rewrite <- orb_assoc, orb_diag; reflexivity ].
Qed.

Lemma inventory_step_idem inv r :
  inventory_step (inventory_step inv r) r = inventory_step inv r.
Proof.
  unfold inventory_step. destruct (row_effect r) as [[[cc crop] c]|];
    cbn [apply_effect]; [|reflexivity].
  rewrite upd_upd. apply upd_ext. intros a. apply agg_union_idem.
Qed.

Lemma inventory_steps_absorb rows r inv :
  r ∈ rows →
  fold_left inventory_step (rows ++ [r]) inv = fold_left inventory_step rows inv.
Proof.
  intros Hr. apply elem_of_Permutation in Hr as [rows' Hp].
  rewrite (fold_left_inventory_step_perm (rows ++ [r]) (r :: r :: rows')).
  - rewrite (fold_left_inventory_step_perm rows (r :: rows') Hp).
    cbn [fold_left]. rewrite inventory_step_idem. reflexivity.
  - rewrite Hp. rewrite <- Permutation_cons_append. reflexivity.
Qed.

Lemma inventory_steps_duplicates rows2 : ∀ rows1 inv,
  (∀ r, r ∈ rows2 → r ∈ rows1) →
  fold_left inventory_step (rows1 ++ rows2) inv = fold_left inventory_step rows1 inv.
Proof.
  induction rows2 as [|r rows2 IH]; intros rows1 inv Hsub.
  - rewrite app_nil_r. reflexivity.
  - rewrite (cons_middle r rows1 rows2), app_assoc. rewrite IH.
    + apply inventory_steps_absorb, Hsub, list_elem_of_here.
    + intros r' Hr'. apply elem_of_app. left. apply Hsub, list_elem_of_further, Hr'.
Qed.

Lemma rows_of_app files1 files2 :
  rows_of (files1 ++ files2) = (rows_of files1 ++ rows_of files2)%list.
Proof. unfold rows_of. apply flat_map_app. Qed.

(** X10 (repeated rows change nothing).  Feeding again rows that the walk
    has already seen (a file met twice, a row repeated in another file)
    leaves the inventory, and what [create_crop_inventory] returns, as they
    were, provided none of the rows fed again has a NaN region: a Python set
    keeps one entry per NaN object, so such a row would add one more NaN to
    [regions], which the single [VNaN] of this development does not show. *)
Theorem repeated_rows_change_nothing (files1 files2 : list csv_file) :
  (∀ r, r ∈ rows_of files2 → r ∈ rows_of files1) →
  (∀ r, r ∈ rows_of files2 → extract_region r ≠ VNaN) →
  inventory (scan (files1 ++ files2)) = inventory (scan files1)
  ∧ create_crop_inventory (files1 ++ files2) = create_crop_inventory files1.
Proof.
  intros Hsub _.
  assert (E : inventory (scan (files1 ++ files2)) = inventory (scan files1)).
  { unfold scan. rewrite !inventory_process_files, rows_of_app.
    apply inventory_steps_duplicates, Hsub. }
  split; [exact E|]. unfold create_crop_inventory. rewrite E. reflexivity.
Qed.

Lemma repeated_rows_change_nothing_witness :
  (∀ r, r ∈ rows_of [file_c] → r ∈ rows_of [file_a])
  ∧ (∀ r, r ∈ rows_of [file_c] → extract_region r ≠ VNaN)
  ∧ inventory (scan ([file_a] ++ [file_c])) = inventory (scan [file_a])
  ∧ create_crop_inventory ([file_a] ++ [file_c]) = create_crop_inventory [file_a].
Proof.
  assert (H : ∀ r, r ∈ rows_of [file_c] → r ∈ rows_of [file_a]).
  { change (rows_of [file_c]) with [row_harvested_2019].
    change (rows_of [file_a]) with [row_harvested_2019; row_production_2020].
    intros r Hr. apply list_elem_of_singleton in Hr as ->. apply list_elem_of_here. }
  assert (Hreg : ∀ r, r ∈ rows_of [file_c] → extract_region r ≠ VNaN).
  { change (rows_of [file_c]) with [row_harvested_2019].
    intros r Hr. apply list_elem_of_singleton in Hr as ->.
    assert (E : extract_region row_harvested_2019 = VStr "National")
      by vm_cast_no_check (eq_refl (VStr "National")).
    rewrite E. discriminate. }
  split; [exact H|]. split; [exact Hreg|].
  exact (repeated_rows_change_nothing [file_a] [file_c] H Hreg).
Defined.

(** ** When the classification raises *)

(** X11 (when classification raises, lines 121-141).  The classification of a
    row returns exactly when the indicator cell is text or missing and, in
    case it sets none of the four booleans, the indicator-group cell is text
    or missing too.  A non-text group cell is harmless once the indicator has
    set a boolean (the group is not read); a non-text indicator always
    raises. *)
Theorem classification_raises_exactly (indicator group : value) :
  is_ok (classify indicator group)
  = text_or_missing indicator
    && (any_flag (from_option spec_indicator_rules no_flags (text_of indicator))
        || text_or_missing group).
Proof.
  unfold classify.
  destruct indicator as [| |s|z]; cbn [text_or_missing text_of from_option andb];
    try reflexivity.
  - change (classify_indicator VNone) with (Ok no_flags). cbn [mbind res_bind].
    destruct group; reflexivity.
  - change (classify_indicator VNaN) with (Ok no_flags). cbn [mbind res_bind].
    destruct group; reflexivity.
  - rewrite classify_indicator_text. cbn [mbind res_bind].
    destruct (any_flag (spec_indicator_rules s)) eqn:E.
    + unfold classify_group. rewrite E. reflexivity.
    + destruct group as [| |t|z]; cbn [text_or_missing orb].
      * rewrite classify_group_missing by reflexivity. reflexivity.
      * rewrite classify_group_missing by reflexivity. reflexivity.
      * rewrite classify_group_text. reflexivity.
      * unfold classify_group. rewrite E. reflexivity.
Qed.
